(** * BudgetAnalyzer (src/lib/budgetAnalyzer.ts): a shallow embedding

    The analyzer turns a free-text question and a list of spreadsheet rows
    into a narrative, an optional chart payload and an optional chart kind.

    JavaScript numbers are kept abstract behind the class [JSNum]: the
    analysis code is written once over it.  Two instances are given:
    - [float] (Rocq's primitive IEEE-754 binary64), the numbers the code
      really computes with;
    - [xnum], the exact model: NaN, signed infinities and exact rationals,
      with JavaScript's rules for the special values.
    Every number is read back through [js_view] into [xnum], which is what
    the formatting functions ([toFixed], [toLocaleString], [String(n)]) use. *)

From Stdlib Require Import ZArith QArith Qround Qabs String Ascii List Bool Lia.
From Stdlib Require Import Floats.
Import ListNotations.

Open Scope Z_scope.

(** ** Numbers *)

(** A JavaScript number as an exact value: NaN, +/-Infinity or a finite
    rational.  (-0 is not distinguished from +0.) *)
Inductive xnum : Type :=
| XNaN
| XInf (neg : bool)
| XFin (q : Q).

Class JSNum (N : Type) := {
  js_of_Z : Z -> N;              (** an integer literal / [Number(n)] *)
  js_dec : Z -> Z -> N;          (** [js_dec m k]: the decimal literal m * 10^k *)
  js_add : N -> N -> N;          (** [+] *)
  js_sub : N -> N -> N;          (** [-] *)
  js_mul : N -> N -> N;          (** [*] *)
  js_div : N -> N -> N;          (** [/] *)
  js_neg : N -> N;               (** unary [-] *)
  js_abs : N -> N;               (** [Math.abs] *)
  js_ltb : N -> N -> bool;       (** [<]; [a > b] is [js_ltb b a] *)
  js_view : N -> xnum            (** the exact value of a number *)
}.

(** *** The exact model *)

Definition qltb (a b : Q) : bool := negb (Qle_bool b a).
Definition qneg (a : Q) : bool := qltb a 0.

Definition xneg (x : xnum) : xnum :=
  match x with
  | XNaN => XNaN
  | XInf s => XInf (negb s)
  | XFin q => XFin (Qred (- q))
  end.

Definition xadd (x y : xnum) : xnum :=
  match x, y with
  | XNaN, _ | _, XNaN => XNaN
  | XInf s, XInf t => if Bool.eqb s t then XInf s else XNaN
  | XInf s, XFin _ | XFin _, XInf s => XInf s
  | XFin a, XFin b => XFin (Qred (a + b))
  end.

Definition xsub (x y : xnum) : xnum := xadd x (xneg y).

Definition xmul (x y : xnum) : xnum :=
  match x, y with
  | XNaN, _ | _, XNaN => XNaN
  | XInf s, XInf t => XInf (xorb s t)
  | XInf s, XFin q | XFin q, XInf s =>
      if Qeq_bool q 0 then XNaN else XInf (xorb s (qneg q))
  | XFin a, XFin b => XFin (Qred (a * b))
  end.

(** Division by zero follows IEEE: [0/0] is NaN, [a/0] an infinity with the
    sign of [a] (the zero being +0). *)
Definition xdiv (x y : xnum) : xnum :=
  match x, y with
  | XNaN, _ | _, XNaN => XNaN
  | XInf _, XInf _ => XNaN
  | XInf s, XFin q => XInf (xorb s (qneg q))
  | XFin _, XInf _ => XFin 0
  | XFin a, XFin b =>
      if Qeq_bool b 0 then (if Qeq_bool a 0 then XNaN else XInf (qneg a))
      else XFin (Qred (a / b))
  end.

Definition xabs (x : xnum) : xnum :=
  match x with
  | XNaN => XNaN
  | XInf _ => XInf false
  | XFin q => XFin (Qred (Qabs q))
  end.

Definition xltb (x y : xnum) : bool :=
  match x, y with
  | XNaN, _ | _, XNaN => false
  | XInf s, XInf t => s && negb t
  | XInf s, XFin _ => s
  | XFin _, XInf t => negb t
  | XFin a, XFin b => qltb a b
  end.

Definition Q_of_dec (m k : Z) : Q :=
  match k with
  | Zneg p => m # Z.to_pos (10 ^ Zpos p)
  | _ => inject_Z (m * 10 ^ k)
  end.

#[global] Instance xnum_JSNum : JSNum xnum := {
  js_of_Z z := XFin (inject_Z z);
  js_dec m k := XFin (Qred (Q_of_dec m k));
  js_add := xadd; js_sub := xsub; js_mul := xmul; js_div := xdiv;
  js_neg := xneg; js_abs := xabs; js_ltb := xltb;
  js_view x := x
}.

(** *** IEEE-754 binary64 *)

(** The double nearest to m * 10^k (round to nearest, ties to even), built
    with the correctly rounded operations of [SpecFloat]. *)
Definition float_of_dec (m k : Z) : float :=
  match k with
  | Zneg p =>
      match m with
      | Z0 => zero
      | Zpos a => SF2Prim (SFdiv prec emax (S754_finite false a 0)
                                           (S754_finite false (5 ^ p) (Zpos p)))
      | Zneg a => SF2Prim (SFdiv prec emax (S754_finite true a 0)
                                           (S754_finite false (5 ^ p) (Zpos p)))
      end
  | _ => SF2Prim (binary_normalize prec emax (m * 10 ^ k) 0 false)
  end.

Definition Q_of_SF (f : spec_float) : xnum :=
  match f with
  | S754_nan => XNaN
  | S754_zero _ => XFin 0
  | S754_infinity s => XInf s
  | S754_finite s m e =>
      let z := if s then Zneg m else Zpos m in
      match e with
      | Zneg p => XFin (Qred (z # (2 ^ p)))
      | _ => XFin (inject_Z (z * 2 ^ e))
      end
  end.

#[global] Instance float_JSNum : JSNum float := {
  js_of_Z z := float_of_dec z 0;
  js_dec := float_of_dec;
  js_add := PrimFloat.add; js_sub := PrimFloat.sub;
  js_mul := PrimFloat.mul; js_div := PrimFloat.div;
  js_neg := PrimFloat.opp; js_abs := PrimFloat.abs; js_ltb := PrimFloat.ltb;
  js_view f := Q_of_SF (Prim2SF f)
}.

Example float_of_dec_105 : float_of_dec 105 (-2) = 1.05%float.
Proof. vm_compute. reflexivity. Qed.

Example float_of_dec_int : float_of_dec 200 0 = 200%float.
Proof. vm_compute. reflexivity. Qed.

(** ** Strings *)

Local Open Scope string_scope.

Definition NL : string := String "010"%char EmptyString.

Definition is_digit (c : ascii) : bool :=
  let n := nat_of_ascii c in ((48 <=? n) && (n <=? 57))%nat.

Definition digit_value (c : ascii) : Z := Z.of_nat (nat_of_ascii c - 48).

Definition digit_char (d : Z) : ascii := ascii_of_nat (48 + Z.to_nat d).

Fixpoint digits_rev (fuel : nat) (n : Z) (acc : string) : string :=
  let acc' := String (digit_char (n mod 10)) acc in
  match fuel with
  | O => acc'
  | S f => if (n / 10 =? 0)%Z then acc' else digits_rev f (n / 10) acc'
  end.

(** Decimal digits of a natural number. *)
Definition Z_digits (n : Z) : string := digits_rev (Z.to_nat (Z.log2 n)) n "".

Definition Z_to_string (z : Z) : string :=
  if (z <? 0)%Z then "-" ++ Z_digits (- z) else Z_digits z.

(** [String(x)] / [Number.prototype.toString()] for a number.  Integers
    below 10^21 print as JavaScript prints them.  Other finite values (not
    met by the claims below) print as an exact fraction, an injective
    stand-in for JavaScript's shortest round-trip decimal. *)
Definition num_to_string (x : xnum) : string :=
  match x with
  | XNaN => "NaN"
  | XInf false => "Infinity"
  | XInf true => "-Infinity"
  | XFin q =>
      let q' := Qred q in
      if (Zpos (Qden q') =? 1)%Z && qltb (Qabs q') (inject_Z (10 ^ 21))
      then Z_to_string (Qnum q')
      else Z_to_string (Qnum q') ++ "/" ++ Z_digits (Zpos (Qden q'))
  end.

(** [x.toFixed(1)]: the integer n with n/10 - x closest to zero, the larger
    one on a tie; a negative x is printed as "-" and the digits of -x. *)
Definition toFixed1 (x : xnum) : string :=
  match x with
  | XFin q =>
      if Qle_bool (inject_Z (10 ^ 21)) (Qabs q) then num_to_string x
      else
        let n := Qfloor (Qabs q * 10 + (1 # 2)) in
        (if qneg q then "-" else "") ++ Z_digits (n / 10) ++ "." ++ Z_digits (n mod 10)
  | _ => num_to_string x
  end.

Definition pad3 (d : Z) : string :=
  if (d <? 10)%Z then "00" ++ Z_digits d
  else if (d <? 100)%Z then "0" ++ Z_digits d else Z_digits d.

(** Fraction digits of [d] thousandths (0 < d < 1000) without trailing zeros. *)
Definition frac3 (d : Z) : string :=
  if (d mod 100 =? 0)%Z then Z_digits (d / 100)
  else if (d mod 10 =? 0)%Z then (if (d <? 100)%Z then "0" else "") ++ Z_digits (d / 10)
  else pad3 d.

Fixpoint group3 (fuel : nat) (n : Z) : string :=
  match fuel with
  | O => Z_digits n
  | S f => if (n <? 1000)%Z then Z_digits n else group3 f (n / 1000) ++ "," ++ pad3 (n mod 1000)
  end.

(** [x.toLocaleString()] in the en-US locale: grouping by thousands, at most
    three fraction digits rounded half away from zero, no trailing zeros. *)
Definition toLocaleString (x : xnum) : string :=
  match x with
  | XNaN => "NaN"
  | XInf false => "∞"
  | XInf true => "-∞"
  | XFin q =>
      let n := Qfloor (Qabs q * 1000 + (1 # 2)) in
      (if qneg q then "-" else "")
        ++ group3 (Z.to_nat (Z.log2 n)) (n / 1000)
        ++ (if (n mod 1000 =? 0)%Z then "" else "." ++ frac3 (n mod 1000))
  end.

Example toFixed1_ex : toFixed1 (XFin (-(1 # 25))) = "-0.0" /\ toFixed1 (XFin (5 # 1)) = "5.0"
  /\ toFixed1 (XFin (1234 # 100)) = "12.3" /\ toFixed1 (XFin (125 # 100)) = "1.3".
Proof. vm_compute. repeat split. Qed.

Example toLocaleString_ex : toLocaleString (XFin (1234567 # 1)) = "1,234,567"
  /\ toLocaleString (XFin (200 # 1)) = "200" /\ toLocaleString (XFin (15 # 10)) = "1.5"
  /\ toLocaleString (XFin (-(1000005 # 1000))) = "-1,000.005".
Proof. vm_compute. repeat split. Qed.

(** [String.prototype.toLowerCase], on the ASCII letters. *)
Definition ascii_lower (c : ascii) : ascii :=
  let n := nat_of_ascii c in
  if ((65 <=? n) && (n <=? 90))%nat then ascii_of_nat (n + 32) else c.

Fixpoint toLowerCase (s : string) : string :=
  match s with
  | EmptyString => EmptyString
  | String c s' => String (ascii_lower c) (toLowerCase s')
  end.

(** [s.includes(sub)]. *)
Fixpoint includes (s sub : string) : bool :=
  prefix sub s || match s with EmptyString => false | String _ s' => includes s' sub end.

(** ** JavaScript values, rows and plain objects *)

Inductive jsval (N : Type) : Type :=
| JUndef
| JNull
| JBool (b : bool)
| JNum (n : N)
| JStr (s : string).
Arguments JUndef {N}.
Arguments JNull {N}.
Arguments JBool {N} b.
Arguments JNum {N} n.
Arguments JStr {N} s.

(** A row of the uploaded sheet: its own properties in insertion order. *)
Definition record (N : Type) : Type := list (string * jsval N).

(** A plain object used as a map ([{}] with [acc[k] = ...]), in insertion order. *)
Definition obj (A : Type) : Type := list (string * A).

Fixpoint obj_get {A : Type} (o : obj A) (k : string) : option A :=
  match o with
  | [] => None
  | (k', v) :: o' => if String.eqb k k' then Some v else obj_get o' k
  end.

(** [o[k] = v]: an existing key keeps its place, a new key goes last. *)
Fixpoint obj_set {A : Type} (o : obj A) (k : string) (v : A) : obj A :=
  match o with
  | [] => [(k, v)]
  | (k', v') :: o' => if String.eqb k k' then (k', v) :: o' else (k', v') :: obj_set o' k v
  end.

(** *** [Array.prototype.sort]

    The sort is stable (ECMAScript 2019); for a consistent comparator its
    result is the unique stable ordering, computed here by inserting the
    elements one by one.  [after y x] says that [y] must be placed after
    [x], i.e. [comparefn(y, x) > 0]. *)
Section StableSort.
Context {A : Type} (after : A -> A -> bool).

Fixpoint insert_sorted (x : A) (l : list A) : list A :=
  match l with
  | [] => [x]
  | y :: l' => if after y x then x :: l else y :: insert_sorted x l'
  end.

Definition stable_sort (l : list A) : list A :=
  fold_left (fun acc x => insert_sorted x acc) l [].
End StableSort.

(** [arr.sort()] without a comparator on strings: code-unit order. *)
Definition sort_strings (l : list string) : list string :=
  stable_sort (fun y x => String.ltb x y) l.

Fixpoint digits_value (l : list ascii) (acc : Z) : option Z :=
  match l with
  | [] => Some acc
  | c :: l' => if is_digit c then digits_value l' (acc * 10 + digit_value c)%Z else None
  end.

(** An array index: the canonical decimal form of an integer below 2^32 - 1. *)
Definition array_index (s : string) : option Z :=
  match list_ascii_of_string s with
  | [] => None
  | c :: rest =>
      if (nat_of_ascii c =? 48)%nat then (match rest with [] => Some 0%Z | _ => None end)
      else match digits_value (c :: rest) 0 with
           | Some v => if (v <? 4294967295)%Z then Some v else None
           | None => None
           end
  end.

Definition index_after (y x : string) : bool :=
  match array_index y, array_index x with
  | Some a, Some b => (b <? a)%Z
  | _, _ => false
  end.

(** [Object.keys(o)]: array indices in ascending numeric order, then the
    other keys in insertion order. *)
Definition obj_keys {A : Type} (o : obj A) : list string :=
  let ks := map fst o in
  stable_sort index_after (filter (fun k => match array_index k with Some _ => true | None => false end) ks)
  ++ filter (fun k => match array_index k with Some _ => false | None => true end) ks.

Definition obj_entries {A : Type} (o : obj A) : list (string * A) :=
  flat_map (fun k => match obj_get o k with Some v => [(k, v)] | None => [] end) (obj_keys o).

Example obj_keys_ex :
  obj_keys [("b", 1); ("2021", 2); ("a", 3); ("999", 4); ("01", 5)] = ["999"; "2021"; "b"; "a"; "01"].
Proof. reflexivity. Qed.

Example sort_strings_ex : sort_strings ["999"; "1000"; "1001"] = ["1000"; "1001"; "999"].
Proof. reflexivity. Qed.

(** ** Reading the rows *)

Section Reading.
Context {N : Type} `{JSNum N}.

Definition js_infinity : N := js_div (js_of_Z 1) (js_of_Z 0).
Definition js_nan : N := js_div (js_of_Z 0) (js_of_Z 0).

(** [Boolean(x)] *)
Definition num_truthy (x : N) : bool :=
  match js_view x with
  | XNaN => false
  | XInf _ => true
  | XFin q => negb (Qeq_bool q 0)
  end.

Definition truthy (v : jsval N) : bool :=
  match v with
  | JUndef | JNull => false
  | JBool b => b
  | JNum n => num_truthy n
  | JStr s => negb (String.eqb s "")
  end.

(** [a || b] *)
Definition js_or (a b : jsval N) : jsval N := if truthy a then a else b.

(** [String(v)], also the property key [acc[v]] stands for. *)
Definition js_to_string (v : jsval N) : string :=
  match v with
  | JUndef => "undefined"
  | JNull => "null"
  | JBool b => if b then "true" else "false"
  | JNum n => num_to_string (js_view n)
  | JStr s => s
  end.

(** *** [parseFloat] *)

Definition is_space (c : ascii) : bool :=
  let n := nat_of_ascii c in ((n =? 32) || ((9 <=? n) && (n <=? 13)))%nat.

Fixpoint trim_start (l : list ascii) : list ascii :=
  match l with
  | c :: l' => if is_space c then trim_start l' else l
  | [] => []
  end.

Fixpoint take_digits (l : list ascii) (acc : Z) (cnt : nat) : Z * nat * list ascii :=
  match l with
  | c :: l' => if is_digit c then take_digits l' (acc * 10 + digit_value c)%Z (S cnt)
               else (acc, cnt, l)
  | [] => (acc, cnt, [])
  end.

Inductive literal := LitInfinity | LitDecimal (m k : Z) | LitNone.

Definition exponent_part (l : list ascii) : Z :=
  match l with
  | c :: r =>
      if (Ascii.eqb c "e" || Ascii.eqb c "E")%char then
        let '(sgn, r') :=
          match r with
          | s :: r' => if Ascii.eqb s "+" then (1%Z, r')
                       else if Ascii.eqb s "-" then ((-1)%Z, r') else (1%Z, r)
          | [] => (1%Z, r)
          end in
        let '(v, n, _) := take_digits r' 0 0 in
        if (n =? 0)%nat then 0%Z else (sgn * v)%Z
      else 0%Z
  | [] => 0%Z
  end.

(** The longest prefix that is a StrUnsignedDecimalLiteral. *)
Definition parse_unsigned (l : list ascii) : literal :=
  if prefix "Infinity" (string_of_list_ascii l) then LitInfinity
  else
    let '(m1, n1, r1) := take_digits l 0 0 in
    let '(m2, n2, r2) :=
      match r1 with
      | c :: r => if Ascii.eqb c "." then take_digits r m1 0 else (m1, 0%nat, r1)
      | [] => (m1, 0%nat, r1)
      end in
    if (n1 + n2 =? 0)%nat then LitNone
    else LitDecimal m2 (exponent_part r2 - Z.of_nat n2)%Z.

Definition parse_float_string (s : string) : N :=
  let l := trim_start (list_ascii_of_string s) in
  let '(neg, l') :=
    match l with
    | c :: r => if Ascii.eqb c "-" then (true, r)
                else if Ascii.eqb c "+" then (false, r) else (false, l)
    | [] => (false, l)
    end in
  let v := match parse_unsigned l' with
           | LitInfinity => js_infinity
           | LitDecimal m k => js_dec m k
           | LitNone => js_nan
           end in
  if neg then js_neg v else v.

(** [parseFloat(v)] = parse of [String(v)]; a number reads back as itself
    (up to the sign of zero). *)
Definition parseFloat (v : jsval N) : N :=
  match v with
  | JNum n => n
  | JStr s => parse_float_string s
  | JUndef | JNull | JBool _ => parse_float_string (js_to_string v)
  end.

(** *** Field access *)

(** [item.k] *)
Definition get (item : record N) (k : string) : jsval N :=
  match obj_get item k with Some v => v | None => JUndef end.

(** [parseFloat(item.Budget || item.budget || 0)] *)
Definition budget_of (item : record N) : N :=
  parseFloat (js_or (js_or (get item "Budget") (get item "budget")) (JNum (js_of_Z 0))).

(** [parseFloat(item.Actual || item.actual || 0)] *)
Definition actual_of (item : record N) : N :=
  parseFloat (js_or (js_or (get item "Actual") (get item "actual")) (JNum (js_of_Z 0))).

(** [item.Year || item.year || new Date().getFullYear()] *)
Definition year_of (current_year : Z) (item : record N) : jsval N :=
  js_or (js_or (get item "Year") (get item "year")) (JNum (js_of_Z current_year)).

(** [item.Category || item.category || item.Description || item.description || 'Unknown'] *)
Definition category_of (item : record N) : jsval N :=
  js_or (js_or (js_or (js_or (get item "Category") (get item "category"))
                      (get item "Description")) (get item "description")) (JStr "Unknown").

(** [budget > 0 ? ((actual - budget) / budget) * 100 : 0], written inline
    in [analyzeTrends], [analyzeDiscrepancies], [analyzeTotals] and
    [analyzeGLEntries]. *)
Definition guarded_variance (budget actual : N) : N :=
  if js_ltb (js_of_Z 0) budget
  then js_mul (js_div (js_sub actual budget) budget) (js_of_Z 100)
  else js_of_Z 0.
End Reading.

Example parse_ex :
  js_view (parse_float_string (N:=float) "  12.5abc") = XFin (25 # 2)
  /\ js_view (parse_float_string (N:=float) "abc") = XNaN
  /\ js_view (parse_float_string (N:=float) "-Infinity") = XInf true
  /\ js_view (parse_float_string (N:=float) "1e3") = XFin 1000.
Proof. vm_compute. repeat split. Qed.

(** ** Results *)

Inductive chart := ChartLine | ChartBar | ChartTable.

Record trend_row (N : Type) := mk_trend_row {
  tr_year : string; tr_variance : N; tr_budget : N; tr_actual : N }.
Record disc_row (N : Type) := mk_disc_row {
  dr_item : record N; dr_variance : N; dr_discrepancy : N }.
Record perf_row (N : Type) := mk_perf_row {
  pr_item : record N; pr_variance : N; pr_score : string }.
Record totals (N : Type) := mk_totals { totalBudget : N; totalActual : N }.
Record gl_acc (N : Type) := mk_gl_acc { gl_count : N; gl_totalBudget : N; gl_totalActual : N }.
Record gl_entry (N : Type) := mk_gl_entry { ge_gl : string; ge_acc : gl_acc N; ge_variance : N }.
Arguments mk_trend_row {N}. Arguments mk_disc_row {N}. Arguments mk_perf_row {N}.
Arguments mk_totals {N}. Arguments mk_gl_acc {N}. Arguments mk_gl_entry {N}.
Arguments tr_year {N}. Arguments tr_variance {N}. Arguments tr_budget {N}. Arguments tr_actual {N}.
Arguments dr_item {N}. Arguments dr_variance {N}. Arguments dr_discrepancy {N}.
Arguments pr_item {N}. Arguments pr_variance {N}. Arguments pr_score {N}.
Arguments totalBudget {N}. Arguments totalActual {N}.
Arguments gl_count {N}. Arguments gl_totalBudget {N}. Arguments gl_totalActual {N}.
Arguments ge_gl {N}. Arguments ge_acc {N}. Arguments ge_variance {N}.

(** The [data] field of a [BudgetAnalysisResult], by analysis. *)
Inductive payload (N : Type) :=
| PTrend (rows : list (trend_row N))
| PRecords (rows : list (record N))
| PDiscrepancies (rows : list (disc_row N))
| PTotals (t : totals N) (variance : N)
| PAverages (avgBudget avgActual avgVariance : N)
| PPerformance (rows : list (perf_row N))
| PGL (accounts : list (gl_acc N))
| PNull.
Arguments PTrend {N}. Arguments PRecords {N}. Arguments PDiscrepancies {N}.
Arguments PTotals {N}. Arguments PAverages {N}. Arguments PPerformance {N}.
Arguments PGL {N}. Arguments PNull {N}.

(** [BudgetAnalysisResult]: [data] and [chartType] are optional. *)
Record result (N : Type) := mk_result {
  insight : string; data : option (payload N); chartType : option chart }.
Arguments mk_result {N}. Arguments insight {N}. Arguments data {N}. Arguments chartType {N}.

(** A call either returns or throws. *)
Inductive outcome (N : Type) :=
| Ok (r : result N)
| Throw (error : string).
Arguments Ok {N}. Arguments Throw {N}.

(** [arr.map((item, index) => ...)] *)
Fixpoint mapi_from {A B : Type} (f : nat -> A -> B) (i : nat) (l : list A) : list B :=
  match l with
  | [] => []
  | x :: l' => f i x :: mapi_from f (S i) l'
  end.

Definition NL2 : string := NL ++ NL.

(** ** The analyses (class [BudgetAnalyzer]; [this.data] is the argument [data]) *)

Section Analyses.
Context {N : Type} `{JSNum N}.

(** [`${x}`] for a number *)
Definition show (x : N) : string := num_to_string (js_view x).
Definition show_nat (n : nat) : string := show (js_of_Z (Z.of_nat n)).
(** [x > 0 ? '+' : ''] *)
Definition plus_sign (x : N) : string := if js_ltb (js_of_Z 0) x then "+" else "".
Definition fixed1 (x : N) : string := toFixed1 (js_view x).
Definition locale (x : N) : string := toLocaleString (js_view x).

(** *** [groupByYear] *)
Definition groupByYear (current_year : Z) (data : list (record N)) : obj (N * N) :=
  fold_left (fun acc item =>
    let year := js_to_string (year_of current_year item) in
    let budget := budget_of item in
    let actual := actual_of item in
    (* [if (!acc[year]) acc[year] = { budget: 0, actual: 0 }], then the two [+=] *)
    let '(b, a) := match obj_get acc year with
                   | Some p => p
                   | None => (js_of_Z 0, js_of_Z 0)
                   end in
    obj_set acc year (js_add b budget, js_add a actual)) data [].

(** *** [analyzeTrends] *)
Definition trend_of_year (yearlyData : obj (N * N)) (year : string) : trend_row N :=
  let '(b, a) := match obj_get yearlyData year with
                 | Some p => p
                 | None => (js_of_Z 0, js_of_Z 0)
                 end in
  mk_trend_row year (guarded_variance b a) b a.

Definition no_trend_row : trend_row N := mk_trend_row "" (js_of_Z 0) (js_of_Z 0) (js_of_Z 0).

(** [trendAnalysis.filter((_, i) => i > 0 && Math.abs(v[i]) < Math.abs(v[i-1])).length] *)
Definition improving_years (trendAnalysis : list (trend_row N)) : nat :=
  length (filter (fun i =>
    (0 <? i)%nat
    && js_ltb (js_abs (tr_variance (nth i trendAnalysis no_trend_row)))
              (js_abs (tr_variance (nth (i - 1) trendAnalysis no_trend_row))))
    (seq 0 (length trendAnalysis))).

(** [Math.abs(v) < 5 ? "✅" : Math.abs(v) < 15 ? "⚠️" : "❌"] *)
Definition status_mark (v : N) : string :=
  if js_ltb (js_abs v) (js_of_Z 5) then "✅"
  else if js_ltb (js_abs v) (js_of_Z 15) then "⚠️" else "❌".

Definition insufficient_years : string :=
  "I need at least 2 years of data to analyze trends. Your current data covers only one year or less.".

Definition positive_trend : string :=
  "📈 **Positive Trend**: Your budget accuracy has generally improved over time." ++ NL2.
Definition declining_trend : string :=
  "📉 **Declining Trend**: Budget accuracy has declined in recent years." ++ NL2.

Definition trend_is_improving (trendAnalysis : list (trend_row N)) : bool :=
  let totalYears := js_sub (js_of_Z (Z.of_nat (length trendAnalysis))) (js_of_Z 1) in
  js_ltb (js_div totalYears (js_of_Z 2)) (js_of_Z (Z.of_nat (improving_years trendAnalysis))).

Definition analyzeTrends (current_year : Z) (data : list (record N)) : result N :=
  let yearlyData := groupByYear current_year data in
  let years := sort_strings (obj_keys yearlyData) in
  if (length years <? 2)%nat then mk_result insufficient_years None None
  else
    let trendAnalysis := map (trend_of_year yearlyData) years in
    let isImproving := trend_is_improving trendAnalysis in
    let head := "**Budget Trend Analysis (" ++ nth 0 years "" ++ " - "
                ++ nth (length years - 1) years "" ++ ")**" ++ NL2 in
    let trend := if isImproving then positive_trend else declining_trend in
    let lines := map (fun y =>
      "• " ++ tr_year y ++ ": " ++ plus_sign (tr_variance y) ++ fixed1 (tr_variance y)
      ++ "% variance " ++ status_mark (tr_variance y) ++ NL) trendAnalysis in
    mk_result (head ++ trend ++ "**Year-by-Year Performance:**" ++ NL ++ String.concat "" lines)
              (Some (PTrend trendAnalysis)) (Some ChartLine).

(** *** [analyzeMissedBudgets] *)

(** [actual > budget * 1.05] *)
Definition is_missed (item : record N) : bool :=
  js_ltb (js_mul (budget_of item) (js_dec 105 (-2))) (actual_of item).

Definition groupMissesByYear (current_year : Z) (missedBudgets : list (record N)) : obj N :=
  fold_left (fun acc item =>
    let year := js_to_string (year_of current_year item) in
    let prev := match obj_get acc year with Some c => c | None => js_of_Z 0 end in
    obj_set acc year (js_add prev (js_of_Z 1))) missedBudgets [].

(** [(missedCount / totalItems) * 100] *)
Definition missed_percentage (missedCount totalItems : nat) : N :=
  js_mul (js_div (js_of_Z (Z.of_nat missedCount)) (js_of_Z (Z.of_nat totalItems))) (js_of_Z 100).

Definition excellent_no_overruns : string :=
  "🎯 **Excellent!** You haven't significantly exceeded your budget in any recorded entries." ++ NL2.

Definition high_risk : string :=
  "⚠️ **High Risk**: More than 30% of your budget entries are over budget. Consider reviewing your budgeting process." ++ NL2.
Definition moderate_concern : string :=
  "🔍 **Moderate Concern**: Some budget categories consistently go over. Review these areas for better planning." ++ NL2.

Definition analyzeMissedBudgets (current_year : Z) (data : list (record N)) : result N :=
  let missedBudgets := filter is_missed data in
  let totalItems := length data in
  let missedCount := length missedBudgets in
  let missedPercentage := missed_percentage missedCount totalItems in
  let head := "**Budget Performance Analysis**" ++ NL2 in
  let body :=
    if (missedCount =? 0)%nat then excellent_no_overruns
    else
      "📊 **Budget Overruns**: " ++ show_nat missedCount ++ " out of " ++ show_nat totalItems
      ++ " entries (" ++ fixed1 missedPercentage ++ "%) exceeded budget by more than 5%." ++ NL2
      ++ (if js_ltb (js_of_Z 30) missedPercentage then high_risk
          else if js_ltb (js_of_Z 15) missedPercentage then moderate_concern
          else "")
      ++ "**Missed Budgets by Year:**" ++ NL
      ++ String.concat "" (map (fun '(year, count) => "• " ++ year ++ ": " ++ show count ++ " budget overruns" ++ NL)
                               (obj_entries (groupMissesByYear current_year missedBudgets))) in
  mk_result (head ++ body) (Some (PRecords missedBudgets)) (Some ChartBar).

(** *** [analyzeDiscrepancies] *)
Definition discrepancy_row (item : record N) : disc_row N :=
  let budget := budget_of item in
  let actual := actual_of item in
  mk_disc_row item (guarded_variance budget actual) (js_sub actual budget).

(** [.filter(item => Math.abs(item.variance) > 5)] *)
Definition significant (r : disc_row N) : bool := js_ltb (js_of_Z 5) (js_abs (dr_variance r)).

Definition discrepancies_of (data : list (record N)) : list (disc_row N) :=
  filter significant (map discrepancy_row data).

(** [.sort((a, b) => Math.abs(b.variance) - Math.abs(a.variance))] *)
Definition sort_by_abs_variance (rows : list (disc_row N)) : list (disc_row N) :=
  stable_sort (fun y x => js_ltb (js_of_Z 0) (js_sub (js_abs (dr_variance x)) (js_abs (dr_variance y)))) rows.

Definition total_discrepancy (rows : list (disc_row N)) : N :=
  fold_left (fun sum item => js_add sum (js_abs (dr_discrepancy item))) rows (js_of_Z 0).

Definition average_abs_variance (rows : list (disc_row N)) : N :=
  if (0 <? length rows)%nat
  then js_div (fold_left (fun sum item => js_add sum (js_abs (dr_variance item))) rows (js_of_Z 0))
              (js_of_Z (Z.of_nat (length rows)))
  else js_of_Z 0.

(** [largestDiscrepancies.forEach((item, index) => ...)] *)
Definition disc_line (index : nat) (item : disc_row N) : string :=
  show_nat (S index) ++ ". " ++ js_to_string (category_of (dr_item item)) ++ ": "
  ++ plus_sign (dr_variance item) ++ fixed1 (dr_variance item) ++ "%" ++ NL.

Definition analyzeDiscrepancies (data : list (record N)) : result N :=
  let discrepancies := discrepancies_of data in
  let totalDiscrepancy := total_discrepancy discrepancies in
  let avgVariance := average_abs_variance discrepancies in
  let head := "**Budget Variance Analysis**" ++ NL2 in
  if (length discrepancies =? 0)%nat then
    mk_result (head ++ "✅ **Excellent Accuracy**: All budget entries are within 5% of planned amounts." ++ NL2)
              (Some (PDiscrepancies discrepancies)) (Some ChartTable)
  else
    (* the sort is in place: [data] below is the sorted array *)
    let sorted := sort_by_abs_variance discrepancies in
    let largestDiscrepancies := firstn 5 sorted in
    let lines := mapi_from disc_line 0 largestDiscrepancies in
    mk_result (head
      ++ "📈 **Variance Summary**: " ++ show_nat (length discrepancies) ++ " entries with significant variances (>5%)" ++ NL
      ++ "💰 **Total Discrepancy**: $" ++ locale totalDiscrepancy ++ NL
      ++ "📊 **Average Variance**: " ++ fixed1 avgVariance ++ "%" ++ NL2
      ++ "**Top 5 Largest Variances:**" ++ NL ++ String.concat "" lines)
      (Some (PDiscrepancies sorted)) (Some ChartTable).

(** *** [analyzeTotals] *)
Definition totals_of (data : list (record N)) : totals N :=
  fold_left (fun acc item =>
    mk_totals (js_add (totalBudget acc) (budget_of item)) (js_add (totalActual acc) (actual_of item)))
    data (mk_totals (js_of_Z 0) (js_of_Z 0)).

Definition excellent_control : string :=
  "🎯 **Excellent Control**: Your overall budget variance is within acceptable limits." ++ NL.
Definition over_budget : string :=
  "⚠️ **Over Budget**: You've exceeded your total budget. Consider reviewing spending controls." ++ NL.
Definition under_budget : string :=
  "💡 **Under Budget**: You've spent less than planned. This could indicate conservative budgeting or missed opportunities." ++ NL.

Definition totals_label (totalVariance : N) : string :=
  if js_ltb (js_abs totalVariance) (js_of_Z 5) then excellent_control
  else if js_ltb (js_of_Z 0) totalVariance then over_budget else under_budget.

Definition analyzeTotals (data : list (record N)) : result N :=
  let totals := totals_of data in
  let totalVariance := guarded_variance (totalBudget totals) (totalActual totals) in
  mk_result ("**Total Budget Analysis**" ++ NL2
    ++ "💰 **Total Budgeted**: $" ++ locale (totalBudget totals) ++ NL
    ++ "💸 **Total Actual**: $" ++ locale (totalActual totals) ++ NL
    ++ "📊 **Overall Variance**: " ++ plus_sign totalVariance ++ fixed1 totalVariance ++ "%" ++ NL2
    ++ totals_label totalVariance)
    (Some (PTotals totals totalVariance)) None.

(** *** [analyzeAverages] *)
Definition avg_budget (data : list (record N)) : N :=
  js_div (fold_left (fun sum item => js_add sum (budget_of item)) data (js_of_Z 0))
         (js_of_Z (Z.of_nat (length data))).
Definition avg_actual (data : list (record N)) : N :=
  js_div (fold_left (fun sum item => js_add sum (actual_of item)) data (js_of_Z 0))
         (js_of_Z (Z.of_nat (length data))).
(** [((avgActual - avgBudget) / avgBudget) * 100], with no guard *)
Definition avg_variance (data : list (record N)) : N :=
  js_mul (js_div (js_sub (avg_actual data) (avg_budget data)) (avg_budget data)) (js_of_Z 100).

Definition analyzeAverages (data : list (record N)) : result N :=
  let avgBudget := avg_budget data in
  let avgActual := avg_actual data in
  let avgVariance := avg_variance data in
  mk_result ("**Average Budget Analysis**" ++ NL2
    ++ "📊 **Average Budget**: $" ++ locale avgBudget ++ NL
    ++ "📈 **Average Actual**: $" ++ locale avgActual ++ NL
    ++ "🎯 **Average Variance**: " ++ plus_sign avgVariance ++ fixed1 avgVariance ++ "%" ++ NL2
    ++ (if js_ltb (js_abs avgVariance) (js_of_Z 10)
        then "✅ **Good Consistency**: Your average spending aligns well with budget planning." ++ NL
        else "⚠️ **Review Needed**: Significant variance in average spending suggests budgeting improvements needed." ++ NL))
    (Some (PAverages avgBudget avgActual avgVariance)) None.

(** *** [analyzePerformance] *)
Definition performance_row (item : record N) : perf_row N :=
  let budget := budget_of item in
  let actual := actual_of item in
  let variance := if js_ltb (js_of_Z 0) budget
                  then js_mul (js_abs (js_div (js_sub actual budget) budget)) (js_of_Z 100)
                  else js_of_Z 0 in
  mk_perf_row item variance
    (if js_ltb variance (js_of_Z 5) then "Excellent"
     else if js_ltb variance (js_of_Z 15) then "Good"
     else if js_ltb variance (js_of_Z 25) then "Fair" else "Poor").

Definition score_counts (performance : list (perf_row N)) : obj N :=
  fold_left (fun acc item =>
    let prev := match obj_get acc (pr_score item) with Some c => c | None => js_of_Z 0 end in
    obj_set acc (pr_score item) (js_add prev (js_of_Z 1))) performance [].

Definition score_emoji (score : string) : string :=
  if String.eqb score "Excellent" then "🌟"
  else if String.eqb score "Good" then "✅"
  else if String.eqb score "Fair" then "⚠️" else "❌".

Definition performer_lines (rows : list (perf_row N)) : string :=
  String.concat "" (mapi_from (fun index item =>
    show_nat (S index) ++ ". " ++ js_to_string (category_of (pr_item item))
    ++ " (" ++ fixed1 (pr_variance item) ++ "% variance)" ++ NL) 0 rows).

Definition analyzePerformance (data : list (record N)) : result N :=
  let performance := map performance_row data in
  let bestPerformers := firstn 3 (filter (fun item => String.eqb (pr_score item) "Excellent") performance) in
  let worstPerformers := firstn 3 (filter (fun item => String.eqb (pr_score item) "Poor") performance) in
  let scores := score_counts performance in
  mk_result ("**Performance Analysis**" ++ NL2
    ++ "📊 **Performance Distribution:**" ++ NL
    ++ String.concat "" (map (fun '(score, count) =>
         "• " ++ score_emoji score ++ " " ++ score ++ ": " ++ show count ++ " entries" ++ NL)
         (obj_entries scores))
    ++ NL ++ "🏆 **Best Performers:**" ++ NL ++ performer_lines bestPerformers
    ++ (match worstPerformers with
        | [] => ""
        | _ => NL ++ "🔍 **Areas for Improvement:**" ++ NL ++ performer_lines worstPerformers
        end))
    (Some (PPerformance performance)) (Some ChartBar).

(** *** [analyzeGLEntries] *)

(** [Object.keys(this.data[0] || {}).filter(...)] *)
Definition glFields_of (data : list (record N)) : list string :=
  filter (fun key => includes (toLowerCase key) "gl" || includes (toLowerCase key) "account"
                     || includes (toLowerCase key) "code")
         (obj_keys (match data with item :: _ => item | [] => [] end)).

Definition glSummary_of (glFields : list string) (data : list (record N)) : obj (gl_acc N) :=
  fold_left (fun acc item =>
    fold_left (fun acc field =>
      let glValue := get item field in
      if truthy glValue then
        let key := js_to_string glValue in
        let prev := match obj_get acc key with
                    | Some a => a
                    | None => mk_gl_acc (js_of_Z 0) (js_of_Z 0) (js_of_Z 0)
                    end in
        obj_set acc key (mk_gl_acc (js_add (gl_count prev) (js_of_Z 1))
                                   (js_add (gl_totalBudget prev) (budget_of item))
                                   (js_add (gl_totalActual prev) (actual_of item)))
      else acc) glFields acc) data [].

Definition glEntries_of (glSummary : obj (gl_acc N)) : list (gl_entry N) :=
  stable_sort (fun y x => js_ltb (js_of_Z 0) (js_sub (js_abs (ge_variance x)) (js_abs (ge_variance y))))
    (map (fun '(gl, d) => mk_gl_entry gl d (guarded_variance (gl_totalBudget d) (gl_totalActual d)))
         (obj_entries glSummary)).

(** The narrative the else-branch builds. *)
Definition gl_report (glFields : list string) (data : list (record N)) : string :=
  let glEntries := glEntries_of (glSummary_of glFields data) in
  "📋 **GL Fields Identified**: " ++ String.concat ", " glFields ++ NL2
  ++ "🔢 **Total GL Accounts**: " ++ show_nat (length glEntries) ++ NL2
  ++ (match glEntries with
      | [] => ""
      | _ =>
        "**Top GL Accounts by Variance:**" ++ NL
        ++ String.concat "" (mapi_from (fun index entry =>
             show_nat (S index) ++ ". " ++ ge_gl entry ++ ": " ++ plus_sign (ge_variance entry)
             ++ fixed1 (ge_variance entry) ++ "% " ++ status_mark (ge_variance entry) ++ NL)
             0 (firstn 5 glEntries))
        ++ (let problematic := filter (fun e => js_ltb (js_of_Z 15) (js_abs (ge_variance e))) glEntries in
            match problematic with
            | [] => ""
            | _ => NL ++ "🚨 **GL Accounts Needing Review**: " ++ show_nat (length problematic)
                   ++ " accounts with >15% variance" ++ NL
            end)
      end).

Definition no_gl_fields : string :=
  "❌ **No GL Fields Found**: Your data doesn't appear to contain General Ledger account codes or similar fields." ++ NL2
  ++ "Common GL field names to look for: 'GL_Account', 'Account_Code', 'GL_Code', etc." ++ NL.

(** [glSummary] is declared with [const] inside the else-block, so the
    [data:] expression of the final [return], outside that block, is a
    reference to an unbound name whenever [glFields.length > 0]. *)
Definition analyzeGLEntries (data : list (record N)) : outcome N :=
  let glFields := glFields_of data in
  let head := "**General Ledger Analysis**" ++ NL2 in
  match glFields with
  | [] =>
      Ok (mk_result (head ++ no_gl_fields) (Some PNull) (Some ChartTable))
  | _ =>
      let _ := head ++ gl_report glFields data in
      Throw "ReferenceError: glSummary is not defined"
  end.

(** *** [provideGeneralInsight]: [Math.floor(Math.random() * 2)] picks one
    of the two texts; [pick] is that draw ([true] for index 1). *)
Definition help_text : string :=
  "I can help you analyze your budget data! Try asking questions like:" ++ NL2
  ++ "• 'What was the trend for our yearly budget submissions?'" ++ NL
  ++ "• 'How many years did we miss the budget plan?'" ++ NL
  ++ "• 'Show me budget variances by category'" ++ NL
  ++ "• 'What are the largest discrepancies in our data?'" ++ NL
  ++ "• 'Analyze our GL account performance'".

Definition overview_text (data : list (record N)) : string :=
  "**Quick Data Overview:**" ++ NL2
  ++ "📊 **Total Records**: " ++ show_nat (length data) ++ NL
  ++ "🗓️ **Data Fields**: " ++ String.concat ", " (obj_keys (match data with item :: _ => item | [] => [] end)) ++ NL2
  ++ "💡 **Tip**: Ask specific questions about trends, variances, or performance to get detailed insights!".

Definition provideGeneralInsight (pick : bool) (data : list (record N)) : result N :=
  mk_result (if pick then overview_text data else help_text) None None.
End Analyses.

(** ** [analyzeQuery] *)

(** What a call reads besides its arguments: the clock
    ([new Date().getFullYear()]) and the random draw. *)
Record env := mk_env { current_year : Z; random_pick : bool }.

Definition analyzeQuery {N : Type} `{JSNum N} (e : env) (query : string) (data : list (record N)) : outcome N :=
  let lowerQuery := toLowerCase query in
  if includes lowerQuery "trend" || includes lowerQuery "yearly" then
    Ok (analyzeTrends (current_year e) data)
  else if includes lowerQuery "missed" || includes lowerQuery "miss" || includes lowerQuery "over budget" then
    Ok (analyzeMissedBudgets (current_year e) data)
  else if includes lowerQuery "discrepan" || includes lowerQuery "variance" || includes lowerQuery "difference" then
    Ok (analyzeDiscrepancies data)
  else if includes lowerQuery "total" || includes lowerQuery "sum" then
    Ok (analyzeTotals data)
  else if includes lowerQuery "average" || includes lowerQuery "mean" then
    Ok (analyzeAverages data)
  else if includes lowerQuery "best" || includes lowerQuery "worst" || includes lowerQuery "performance" then
    Ok (analyzePerformance data)
  else if includes lowerQuery "gl" || includes lowerQuery "general ledger" then
    analyzeGLEntries data
  else Ok (provideGeneralInsight (random_pick e) data).

(** * What the specification describes

    Definitions written from the specification's words, to be compared with
    the embedding above. *)

From Stdlib Require Import Permutation Sorted.

Local Open Scope string_scope.

(** ** The classifier's table: categories in priority order with their
    keyword sets. *)
Inductive category :=
| CatTrend | CatMissed | CatDiscrepancy | CatTotals | CatAverages
| CatPerformance | CatLedger | CatGeneral.

Definition category_keywords : list (category * list string) :=
  [ (CatTrend, ["trend"; "yearly"]);
    (CatMissed, ["missed"; "miss"; "over budget"]);
    (CatDiscrepancy, ["discrepan"; "variance"; "difference"]);
    (CatTotals, ["total"; "sum"]);
    (CatAverages, ["average"; "mean"]);
    (CatPerformance, ["best"; "worst"; "performance"]);
    (CatLedger, ["gl"; "general ledger"]) ].

(** The first category one of whose keywords occurs in [q]. *)
Fixpoint first_match (q : string) (table : list (category * list string)) : category :=
  match table with
  | [] => CatGeneral
  | (c, ws) :: table' => if existsb (includes q) ws then c else first_match q table'
  end.

Definition classify (query : string) : category :=
  first_match (toLowerCase query) category_keywords.

(** The analysis a category stands for. *)
Definition run_category {N : Type} `{JSNum N} (e : env) (c : category) (data : list (record N)) : outcome N :=
  match c with
  | CatTrend => Ok (analyzeTrends (current_year e) data)
  | CatMissed => Ok (analyzeMissedBudgets (current_year e) data)
  | CatDiscrepancy => Ok (analyzeDiscrepancies data)
  | CatTotals => Ok (analyzeTotals data)
  | CatAverages => Ok (analyzeAverages data)
  | CatPerformance => Ok (analyzePerformance data)
  | CatLedger => analyzeGLEntries data
  | CatGeneral => Ok (provideGeneralInsight (random_pick e) data)
  end.

(** ** Sums and means as the specification reads them *)
Definition sum_left {N : Type} `{JSNum N} (l : list N) : N := fold_left js_add l (js_of_Z 0).

(** ** Consecutive pairs [(v[i-1], v[i])] with [|v[i]| < |v[i-1]|] *)
Fixpoint improving_pairs {N : Type} `{JSNum N} (rows : list (trend_row N)) : nat :=
  match rows with
  | r1 :: ((r2 :: _) as rest) =>
      (if js_ltb (js_abs (tr_variance r2)) (js_abs (tr_variance r1)) then 1 else 0)%nat
      + improving_pairs rest
  | _ => 0%nat
  end.

(** The head of the trend narrative. *)
Definition trend_head (years : list string) : string :=
  "**Budget Trend Analysis (" ++ nth 0 years "" ++ " - "
  ++ nth (length years - 1) years "" ++ ")**" ++ NL2.

(** ** Order laws of a number type

    [<] is a strict order that is total on the numbers other than NaN, and
    [0 < a - b] decides [b < a].  The exact model satisfies them (proved
    below); so do IEEE doubles. *)
Class OrderLaws (N : Type) `{JSNum N} : Prop := {
  ltb_irrefl : forall a, js_ltb a a = false;
  ltb_trans : forall a b c, js_ltb a b = true -> js_ltb b c = true -> js_ltb a c = true;
  ltb_not_nan : forall a b, js_ltb a b = true -> js_view a <> XNaN /\ js_view b <> XNaN;
  ltb_neg_trans : forall a b c, js_view b <> XNaN ->
    js_ltb a c = true -> js_ltb a b = true \/ js_ltb b c = true;
  ltb_sub_zero : forall a b, js_ltb (js_of_Z 0) (js_sub a b) = js_ltb b a
}.

(** [|variance|] of a discrepancy row, the sort key. *)
Definition abs_variance {N : Type} `{JSNum N} (r : disc_row N) : N := js_abs (dr_variance r).

(** [x] ties with the key [k]: neither key is below the other. *)
Definition tie_with {A K : Type} (key : A -> K) (lt : K -> K -> bool) (k : K) (x : A) : bool :=
  negb (lt (key x) k) && negb (lt k (key x)).

(** ** Inputs *)

Definition num_field {N : Type} `{JSNum N} (k : string) (z : Z) : string * jsval N :=
  (k, JNum (js_of_Z z)).

(** The two-record scenario of the specification. *)
Definition two_years {N : Type} `{JSNum N} : list (record N) :=
  [ [num_field "Year" 2021; num_field "Budget" 100; num_field "Actual" 120];
    [num_field "Year" 2022; num_field "Budget" 100; num_field "Actual" 90] ].

(** A budget that is a non-numeric string. *)
Definition text_budget {N : Type} `{JSNum N} : list (record N) :=
  [ [("Budget", JStr "abc"); num_field "Actual" 50] ].

(** A zero budget. *)
Definition zero_budget {N : Type} `{JSNum N} (actual : Z) : list (record N) :=
  [ [num_field "Budget" 0; num_field "Actual" actual] ].

(** A record whose actual is the value of [budget * 1.05 + 0.01]. *)
Definition just_over {N : Type} `{JSNum N} (budget : Z) : record N :=
  [ num_field "Budget" budget;
    ("Actual", JNum (js_add (js_mul (js_of_Z budget) (js_dec 105 (-2))) (js_dec 1 (-2)))) ].

(** Three years whose code-unit order differs from their numeric order. *)
Definition three_years {N : Type} `{JSNum N} : list (record N) :=
  [ [num_field "Year" 999; num_field "Budget" 100; num_field "Actual" 130];
    [num_field "Year" 1000; num_field "Budget" 100; num_field "Actual" 120];
    [num_field "Year" 1001; num_field "Budget" 100; num_field "Actual" 110] ].

(** Two ledger accounts. *)
Definition two_accounts {N : Type} `{JSNum N} : list (record N) :=
  [ [("GL_Account", JStr "4000"); num_field "Budget" 100; num_field "Actual" 90];
    [("GL_Account", JStr "4100"); num_field "Budget" 50; num_field "Actual" 60] ].

(** One record with a year and one without. *)
Definition one_undated {N : Type} `{JSNum N} : list (record N) :=
  [ [num_field "Budget" 100; num_field "Actual" 110];
    [num_field "Year" 2025; num_field "Budget" 100; num_field "Actual" 100] ].

(** ** Counters with integer values

    [acc[k] = (acc[k] || 0) + 1] over the exact model keeps integer counts:
    [zcount] is that fold on [Z], [as_num] reads it back as numbers. *)

Definition zcount {A : Type} (key : A -> string) (l : list A) (o : obj Z) : obj Z :=
  fold_left (fun acc x => obj_set acc (key x) ((match obj_get acc (key x) with Some c => c | None => 0 end) + 1)%Z) l o.

Definition as_num (zs : obj Z) : obj xnum := map (fun p => (fst p, js_of_Z (snd p))) zs.

(** ** Keys that the objects above model faithfully

    A fresh [{}] inherits the members of [Object.prototype]: [acc[k]] reads
    one of them, and [acc["__proto__"] = v] sets the prototype instead of an
    own key.  A number key is [String(n)], which [num_to_string] prints as
    JavaScript does for integers below 10^21.  [plain_key] holds of the keys
    for which [obj_get], [obj_set] and [js_to_string] read and write as the
    code does. *)

Definition object_prototype_keys : list string :=
  ["__proto__"; "constructor"; "hasOwnProperty"; "isPrototypeOf"; "propertyIsEnumerable";
   "toLocaleString"; "toString"; "valueOf"; "__defineGetter__"; "__defineSetter__";
   "__lookupGetter__"; "__lookupSetter__"].

Definition plain_key {N : Type} `{JSNum N} (v : jsval N) : bool :=
  match v with
  | JNum n =>
      match js_view n with
      | XFin q => (Zpos (Qden (Qred q)) =? 1)%Z && qltb (Qabs (Qred q)) (inject_Z (10 ^ 21))
      | _ => true
      end
  | _ => negb (existsb (String.eqb (js_to_string v)) object_prototype_keys)
  end.

(** * Lemmas *)

(** ** IEEE doubles: [<] is irreflexive *)
Lemma float_ltb_irrefl (x : float) : PrimFloat.ltb x x = false.
Proof.
  rewrite FloatAxioms.ltb_spec. unfold SFltb, SFcompare.
  destruct (Prim2SF x) as [s|s| |s m e]; try destruct s; try reflexivity;
    rewrite Z.compare_refl; change (Pos.compare_cont Eq m m) with (Pos.compare m m);
    rewrite Pos.compare_refl; reflexivity.
Qed.

(** ** The exact model *)

Lemma qltb_spec (a b : Q) : qltb a b = true <-> (a < b)%Q.
Proof.
  unfold qltb. rewrite negb_true_iff. split; intro H.
  - apply Qnot_le_lt. intro H'. apply Qle_bool_iff in H'. congruence.
  - destruct (Qle_bool b a) eqn:E; [|reflexivity].
    apply Qle_bool_iff in E. exfalso. exact (Qlt_not_le _ _ H E).
Qed.

Lemma qltb_false (a b : Q) : qltb a b = false <-> (b <= a)%Q.
Proof.
  unfold qltb. rewrite negb_false_iff. apply Qle_bool_iff.
Qed.

Lemma qltb_compat (a a' b b' : Q) : (a == a')%Q -> (b == b')%Q -> qltb a b = qltb a' b'.
Proof.
  intros Ha Hb. destruct (qltb a' b') eqn:E.
  - apply qltb_spec. apply qltb_spec in E. rewrite Ha, Hb. exact E.
  - apply qltb_false. apply qltb_false in E. rewrite Ha, Hb. exact E.
Qed.

Ltac qltb_to_prop :=
  repeat match goal with
  | H : qltb _ _ = true |- _ => apply qltb_spec in H
  | H : qltb _ _ = false |- _ => apply qltb_false in H
  | |- qltb _ _ = true => apply qltb_spec
  | |- qltb _ _ = false => apply qltb_false
  end.

Lemma xltb_irrefl (a : xnum) : xltb a a = false.
Proof.
  destruct a as [|s|q]; simpl; [reflexivity | destruct s; reflexivity |].
  qltb_to_prop. apply Qle_refl.
Qed.

Ltac destruct_bools :=
  repeat match goal with b : bool |- _ => destruct b end.

Lemma xltb_trans (a b c : xnum) : xltb a b = true -> xltb b c = true -> xltb a c = true.
Proof.
  destruct a as [|s|p], b as [|t|q], c as [|u|r]; simpl; intros H1 H2;
    destruct_bools; simpl in *; try discriminate; try reflexivity.
  qltb_to_prop. eapply Qlt_trans; eassumption.
Qed.

Lemma xltb_not_nan (a b : xnum) : xltb a b = true -> a <> XNaN /\ b <> XNaN.
Proof.
  destruct a, b; simpl; intro H; try discriminate; split; discriminate.
Qed.

Lemma xltb_neg_trans (a b c : xnum) : b <> XNaN ->
  xltb a c = true -> xltb a b = true \/ xltb b c = true.
Proof.
  intros Hb. destruct a as [|s|p], b as [|t|q], c as [|u|r]; simpl; intro H;
    try congruence; destruct_bools; simpl in *; auto.
  destruct (Qlt_le_dec p q) as [E|E].
  - left. apply qltb_spec. exact E.
  - right. qltb_to_prop. eapply Qle_lt_trans; eassumption.
Qed.

Lemma xltb_sub_zero (a b : xnum) : xltb (XFin 0) (xsub a b) = xltb b a.
Proof.
  destruct a as [|s|p], b as [|t|q]; unfold xsub; cbn -[Qred Qopp Qplus qltb];
    destruct_bools; try reflexivity.
  rewrite (qltb_compat 0 0 _ (p + - q) (Qeq_refl 0)).
  - destruct (qltb q p) eqn:E.
    + qltb_to_prop. exact (proj1 (Qlt_minus_iff q p) E).
    + qltb_to_prop. apply Qnot_lt_le. intro F.
      exact (Qle_not_lt _ _ E (proj2 (Qlt_minus_iff q p) F)).
  - rewrite Qred_correct. rewrite Qred_correct. reflexivity.
Qed.

#[global] Instance xnum_OrderLaws : OrderLaws xnum.
Proof.
  split.
  - exact xltb_irrefl.
  - exact xltb_trans.
  - exact xltb_not_nan.
  - exact xltb_neg_trans.
  - exact xltb_sub_zero.
Qed.

(** ** The stable sort *)

Lemma insert_sorted_ext {A : Type} (f g : A -> A -> bool) (x : A) (l : list A) :
  (forall y x, f y x = g y x) -> insert_sorted f x l = insert_sorted g x l.
Proof.
  intro E. induction l as [|y l IH]; simpl; [reflexivity|].
  rewrite E, IH. reflexivity.
Qed.

Lemma stable_sort_ext {A : Type} (f g : A -> A -> bool) (l : list A) :
  (forall y x, f y x = g y x) -> stable_sort f l = stable_sort g l.
Proof.
  intro E. unfold stable_sort. generalize (@nil A) as acc.
  induction l as [|x l IH]; intro acc; simpl; [reflexivity|].
  rewrite (insert_sorted_ext f g x acc E). apply IH.
Qed.

Lemma insert_sorted_perm {A : Type} (f : A -> A -> bool) (x : A) (l : list A) :
  Permutation (insert_sorted f x l) (x :: l).
Proof.
  induction l as [|y l IH]; simpl; [reflexivity|].
  destruct (f y x); [reflexivity|].
  rewrite IH. apply perm_swap.
Qed.

Lemma stable_sort_perm {A : Type} (f : A -> A -> bool) (l : list A) :
  Permutation (stable_sort f l) l.
Proof.
  unfold stable_sort.
  enough (G : forall acc, Permutation (fold_left (fun acc x => insert_sorted f x acc) l acc) (l ++ acc))
    by (rewrite G, app_nil_r; reflexivity).
  induction l as [|x l IH]; intro acc; simpl; [reflexivity|].
  rewrite IH, insert_sorted_perm. symmetry. apply Permutation_middle.
Qed.

Lemma filter_all_false {A : Type} (f : A -> bool) (l : list A) :
  (forall z, In z l -> f z = false) -> filter f l = [].
Proof.
  induction l as [|x l IH]; intro H; simpl; [reflexivity|].
  rewrite H by (simpl; auto). apply IH. intros z Hz. apply H. simpl. auto.
Qed.

(** Sorting by a key under a strict order: [y] goes after [x] when
    [key y < key x], so the result is in descending key order, and the
    elements with equal keys keep their input order. *)
Section SortByKey.
Variables (A K : Type) (key : A -> K) (lt : K -> K -> bool) (ok : K -> Prop).
Hypothesis lt_irrefl : forall a, lt a a = false.
Hypothesis lt_trans : forall a b c, lt a b = true -> lt b c = true -> lt a c = true.
Hypothesis lt_neg_trans : forall a b c, ok b -> lt a c = true -> lt a b = true \/ lt b c = true.

Lemma insert_by_key_sorted (x : A) (l : list A) :
  StronglySorted (fun a b => lt (key a) (key b) = false) l ->
  StronglySorted (fun a b => lt (key a) (key b) = false)
    (insert_sorted (fun y x => lt (key y) (key x)) x l).
Proof.
  induction l as [|y l IH]; intro HS; simpl.
  - repeat constructor.
  - apply StronglySorted_inv in HS as [HS Hy].
    destruct (lt (key y) (key x)) eqn:Eyx.
    + constructor; [constructor; assumption|].
      constructor.
      * destruct (lt (key x) (key y)) eqn:Exy; [|reflexivity].
        pose proof (lt_trans _ _ _ Exy Eyx) as C. rewrite lt_irrefl in C. discriminate.
      * rewrite Forall_forall in Hy |- *. intros z Hz.
        destruct (lt (key x) (key z)) eqn:Exz; [|reflexivity].
        pose proof (lt_trans _ _ _ Eyx Exz) as C. rewrite (Hy z Hz) in C. discriminate.
    + constructor; [apply IH; assumption|].
      rewrite Forall_forall in Hy |- *. intros z Hz.
      apply (Permutation_in _ (insert_sorted_perm _ x l)) in Hz.
      destruct Hz as [<-|Hz]; [assumption | apply Hy; assumption].
Qed.

Lemma sort_by_key_sorted (l : list A) :
  StronglySorted (fun a b => lt (key a) (key b) = false)
    (stable_sort (fun y x => lt (key y) (key x)) l).
Proof.
  unfold stable_sort.
  assert (G : forall acc, StronglySorted (fun a b => lt (key a) (key b) = false) acc ->
    StronglySorted (fun a b => lt (key a) (key b) = false)
      (fold_left (fun acc x => insert_sorted (fun y x => lt (key y) (key x)) x acc) l acc)).
  { induction l as [|x l IH]; intros acc HS; simpl; [assumption|].
    apply IH. apply insert_by_key_sorted. assumption. }
  apply G. constructor.
Qed.

Lemma insert_by_key_stable (k : K) (x : A) (l : list A) :
  ok k -> (forall z, In z (x :: l) -> ok (key z)) ->
  StronglySorted (fun a b => lt (key a) (key b) = false) l ->
  filter (tie_with key lt k) (insert_sorted (fun y x => lt (key y) (key x)) x l)
  = (filter (tie_with key lt k) l ++ filter (tie_with key lt k) [x])%list.
Proof.
  intros Hk. induction l as [|y l IH]; intros Hok HS; simpl; [reflexivity|].
  apply StronglySorted_inv in HS as [HS Hy]. rewrite Forall_forall in Hy.
  destruct (lt (key y) (key x)) eqn:Eyx.
  - simpl. destruct (tie_with key lt k x) eqn:Tx; [|rewrite app_nil_r; reflexivity].
    unfold tie_with in Tx. apply andb_true_iff in Tx as [Tx1 Tx2].
    apply negb_true_iff in Tx1, Tx2.
    assert (Ty : tie_with key lt k y = false).
    { unfold tie_with. destruct (lt_neg_trans _ k _ Hk Eyx) as [E|E];
        [rewrite E; reflexivity | congruence]. }
    assert (Tl : filter (tie_with key lt k) l = []).
    { apply filter_all_false; intros z Hz.
      destruct (lt_neg_trans (key y) (key z) (key x)) as [E|E];
        [apply Hok; simpl; auto | exact Eyx | rewrite (Hy z Hz) in E; discriminate |].
      unfold tie_with. destruct (lt_neg_trans _ k _ Hk E) as [E'|E'];
        [rewrite E'; reflexivity | congruence]. }
    rewrite Ty, Tl. reflexivity.
  - simpl. rewrite IH; [| intros z Hz; apply Hok; simpl in *; tauto | assumption].
    destruct (tie_with key lt k y); reflexivity.
Qed.

Lemma sort_by_key_stable (k : K) (l : list A) :
  ok k -> (forall z, In z l -> ok (key z)) ->
  filter (tie_with key lt k) (stable_sort (fun y x => lt (key y) (key x)) l) = filter (tie_with key lt k) l.
Proof.
  intros Hk Hl. unfold stable_sort.
  enough (G : forall acc,
    StronglySorted (fun a b => lt (key a) (key b) = false) acc ->
    (forall z, In z (acc ++ l)%list -> ok (key z)) ->
    filter (tie_with key lt k) (fold_left (fun acc x => insert_sorted (fun y x => lt (key y) (key x)) x acc) l acc)
    = (filter (tie_with key lt k) acc ++ filter (tie_with key lt k) l)%list)
    by (apply G; [constructor | exact Hl]).
  clear Hl. induction l as [|x l IH]; intros acc HS Hok; simpl.
  - rewrite app_nil_r. reflexivity.
  - rewrite IH.
    + rewrite insert_by_key_stable; [| exact Hk | | exact HS].
      * rewrite <- app_assoc. simpl. destruct (tie_with key lt k x); reflexivity.
      * intros z [<-|Hz]; apply Hok; apply in_or_app; simpl; auto.
    + apply insert_by_key_sorted. exact HS.
    + intros z Hz. apply in_app_or in Hz as [Hz|Hz].
      * apply (Permutation_in _ (insert_sorted_perm _ x acc)) in Hz.
        destruct Hz as [<-|Hz]; apply Hok; apply in_or_app; simpl; auto.
      * apply Hok. apply in_or_app. simpl. auto.
Qed.
End SortByKey.

(** ** Strings and folds *)

Lemma str_app_assoc (a b c : string) : (a ++ b) ++ c = a ++ (b ++ c).
Proof. induction a as [|x a IH]; simpl; [reflexivity|]. rewrite IH. reflexivity. Qed.

Lemma fold_left_map_fun {A B C : Type} (f : A -> B -> A) (g : C -> B) (l : list C) (a : A) :
  fold_left f (map g l) a = fold_left (fun acc x => f acc (g x)) l a.
Proof.
  revert a. induction l as [|x l IH]; intro a; simpl; [reflexivity|]. apply IH.
Qed.

(** ** The discrepancy sort is the sort by descending [|variance|] *)
Section DiscrepancySort.
Context {N : Type} `{JN : JSNum N} `{laws : !OrderLaws N}.

Lemma sort_by_abs_variance_by_key (rows : list (disc_row N)) :
  sort_by_abs_variance rows
  = stable_sort (fun y x => js_ltb (abs_variance y) (abs_variance x)) rows.
Proof.
  unfold sort_by_abs_variance. apply stable_sort_ext. intros y x.
  apply ltb_sub_zero.
Qed.

Lemma significant_not_nan (r : disc_row N) :
  js_ltb (js_of_Z 5) (abs_variance r) = true -> js_view (abs_variance r) <> XNaN.
Proof. intro H. apply (ltb_not_nan _ _ H). Qed.
End DiscrepancySort.

(** ** The classifier *)

Lemma prefix_lower (w s : string) :
  prefix w s = true -> prefix (toLowerCase w) (toLowerCase s) = true.
Proof.
  revert s. induction w as [|a w IH]; intros s H; destruct s as [|b s]; simpl in *;
    try reflexivity; [discriminate|].
  destruct (ascii_dec a b) as [<-|]; [|discriminate].
  destruct (ascii_dec (ascii_lower a) (ascii_lower a)) as [_|C]; [|congruence].
  apply IH. exact H.
Qed.

(** Lower-casing keeps an occurrence of a substring. *)
Lemma includes_lower (s w : string) :
  includes s w = true -> includes (toLowerCase s) (toLowerCase w) = true.
Proof.
  induction s as [|c s IH]; intro H.
  - destruct w as [|a w]; [reflexivity|]. simpl in H. discriminate.
  - change (includes (String c s) w) with (prefix w (String c s) || includes s w) in H.
    change (includes (toLowerCase (String c s)) (toLowerCase w))
      with (prefix (toLowerCase w) (toLowerCase (String c s)) || includes (toLowerCase s) (toLowerCase w)).
    apply orb_true_iff in H as [H|H].
    + rewrite (prefix_lower _ _ H). reflexivity.
    + rewrite (IH H). apply orb_true_r.
Qed.

(** [analyzeQuery] runs the category its table selects. *)
Lemma analyzeQuery_run_category {N : Type} `{JSNum N} (e : env) (query : string)
    (records : list (record N)) :
  analyzeQuery e query records = run_category e (classify query) records.
Proof.
  unfold analyzeQuery, classify, category_keywords. cbn [first_match existsb].
  rewrite !orb_false_r.
  set (q := toLowerCase query).
  destruct (includes q "trend" || includes q "yearly"); [reflexivity|].
  destruct (includes q "missed" || (includes q "miss" || includes q "over budget")) eqn:E1;
    rewrite ?orb_assoc in *; rewrite ?E1; [reflexivity|].
  destruct (includes q "discrepan" || includes q "variance" || includes q "difference"); [reflexivity|].
  destruct (includes q "total" || includes q "sum"); [reflexivity|].
  destruct (includes q "average" || includes q "mean"); [reflexivity|].
  destruct (includes q "best" || includes q "worst" || includes q "performance"); [reflexivity|].
  destruct (includes q "gl" || includes q "general ledger"); reflexivity.
Qed.

(** ** The trend analysis *)

Lemma filter_seq_shift (f : nat -> bool) (s n : nat) :
  length (filter f (seq (S s) n)) = length (filter (fun i => f (S i)) (seq s n)).
Proof.
  revert s. induction n as [|n IH]; intro s; simpl; [reflexivity|].
  destruct (f (S s)); simpl; rewrite IH; reflexivity.
Qed.

Section Improving.
Context {N : Type} `{JSNum N}.

Lemma improving_from (r : trend_row N) (l : list (trend_row N)) :
  length (filter (fun i => js_ltb (js_abs (tr_variance (nth i l no_trend_row)))
                                  (js_abs (tr_variance (nth i (r :: l) no_trend_row))))
                 (seq 0 (length l)))
  = improving_pairs (r :: l).
Proof.
  revert r. induction l as [|r2 l IH]; intro r; [reflexivity|].
  change (length (r2 :: l)) with (S (length l)).
  cbn [seq filter nth].
  change (improving_pairs (r :: r2 :: l))
    with ((if js_ltb (js_abs (tr_variance r2)) (js_abs (tr_variance r)) then 1 else 0)
          + improving_pairs (r2 :: l))%nat.
  rewrite <- (IH r2).
  destruct (js_ltb (js_abs (tr_variance r2)) (js_abs (tr_variance r))); cbn [length];
    rewrite filter_seq_shift; reflexivity.
Qed.

(** The index filter of the source counts the improving consecutive pairs. *)
Lemma improving_years_pairs (rows : list (trend_row N)) :
  improving_years rows = improving_pairs rows.
Proof.
  unfold improving_years. destruct rows as [|r l]; [reflexivity|].
  rewrite <- improving_from.
  change (length (r :: l)) with (S (length l)). cbn [seq filter].
  change ((0 <? 0)%nat) with false. cbn [andb].
  rewrite filter_seq_shift. f_equal. apply filter_ext. intro i.
  cbn [Nat.ltb Nat.leb andb]. replace (S i - 1)%nat with i by lia. reflexivity.
Qed.
End Improving.

(** In the exact model, [(m - 1) / 2 < k] is [m - 1 < 2k]. *)
Lemma half_pairs_xnum (m k : Z) :
  xltb (xdiv (xsub (XFin (inject_Z m)) (XFin (inject_Z 1))) (XFin (inject_Z 2))) (XFin (inject_Z k))
  = (m - 1 <? 2 * k)%Z.
Proof.
  change (xdiv (xsub (XFin (inject_Z m)) (XFin (inject_Z 1))) (XFin (inject_Z 2)))
    with (XFin (Qred (Qred (inject_Z m + Qred (- inject_Z 1)) / inject_Z 2))).
  change (xltb (XFin (Qred (Qred (inject_Z m + Qred (- inject_Z 1)) / inject_Z 2))) (XFin (inject_Z k)))
    with (qltb (Qred (Qred (inject_Z m + Qred (- inject_Z 1)) / inject_Z 2)) (inject_Z k)).
  rewrite (qltb_compat _ ((m - 1) # 2) _ (inject_Z k)).
  - unfold qltb, Qle_bool, inject_Z. cbn -[Z.mul Z.sub Z.ltb Z.leb].
    destruct (Z.leb_spec (k * 2) ((m - 1) * 1)), (Z.ltb_spec (m - 1) (2 * k)); simpl; lia.
  - rewrite !Qred_correct. unfold Qeq, inject_Z. simpl. lia.
  - reflexivity.
Qed.

Lemma trend_is_improving_xnum (rows : list (trend_row xnum)) :
  (1 <= length rows)%nat ->
  trend_is_improving rows = (length rows - 1 <? 2 * improving_pairs rows)%nat.
Proof.
  intro L. unfold trend_is_improving. rewrite improving_years_pairs.
  change (xltb (xdiv (xsub (XFin (inject_Z (Z.of_nat (length rows)))) (XFin (inject_Z 1))) (XFin (inject_Z 2)))
               (XFin (inject_Z (Z.of_nat (improving_pairs rows))))
          = (length rows - 1 <? 2 * improving_pairs rows)%nat).
  rewrite half_pairs_xnum.
  destruct (Z.ltb_spec (Z.of_nat (length rows) - 1) (2 * Z.of_nat (improving_pairs rows))),
           (Nat.ltb_spec (length rows - 1) (2 * improving_pairs rows)); lia.
Qed.

(** ** Code-unit order of strings *)

Lemma string_ltb_irrefl (a : string) : String.ltb a a = false.
Proof.
  unfold String.ltb. induction a as [|c a IH]; [reflexivity|].
  simpl. unfold Ascii.compare. rewrite N.compare_refl. exact IH.
Qed.

Lemma string_compare_lt_trans (a b c : string) :
  String.compare a b = Lt -> String.compare b c = Lt -> String.compare a c = Lt.
Proof.
  revert b c. induction a as [|x a IH]; intros [|y b] [|z c]; simpl; intros H1 H2;
    try discriminate; try reflexivity.
  revert H1 H2. unfold Ascii.compare.
  destruct (N.compare_spec (N_of_ascii x) (N_of_ascii y)) as [Exy|Exy|Exy];
  destruct (N.compare_spec (N_of_ascii y) (N_of_ascii z)) as [Eyz|Eyz|Eyz];
    intros H1 H2; try discriminate.
  - rewrite Exy, Eyz, N.compare_refl. eauto.
  - rewrite Exy. rewrite (proj2 (N.compare_lt_iff _ _) Eyz). reflexivity.
  - rewrite <- Eyz. rewrite (proj2 (N.compare_lt_iff _ _) Exy). reflexivity.
  - rewrite (proj2 (N.compare_lt_iff _ _) (N.lt_trans _ _ _ Exy Eyz)). reflexivity.
Qed.

Lemma string_ltb_trans (a b c : string) :
  String.ltb a b = true -> String.ltb b c = true -> String.ltb a c = true.
Proof.
  unfold String.ltb.
  destruct (String.compare a b) eqn:E1; try discriminate.
  destruct (String.compare b c) eqn:E2; try discriminate.
  rewrite (string_compare_lt_trans _ _ _ E1 E2). reflexivity.
Qed.

(** [arr.sort()] leaves strings in ascending code-unit order. *)
Lemma sort_strings_sorted (l : list string) :
  StronglySorted (fun a b => String.ltb b a = false) (sort_strings l).
Proof.
  apply (sort_by_key_sorted string string (fun s => s) (fun a b => String.ltb b a)).
  - exact string_ltb_irrefl.
  - intros a b c H1 H2. exact (string_ltb_trans _ _ _ H2 H1).
Qed.

(** ** Keys of plain objects *)

Lemma obj_set_keys_in {A : Type} (o : obj A) (k k' : string) (v : A) :
  In k' (map fst (obj_set o k v)) <-> k' = k \/ In k' (map fst o).
Proof.
  induction o as [|[k0 v0] o IH]; simpl; [intuition congruence|].
  destruct (String.eqb_spec k k0) as [<-|Ne]; simpl; [intuition congruence|].
  rewrite IH. intuition congruence.
Qed.

Lemma obj_set_nodup {A : Type} (o : obj A) (k : string) (v : A) :
  NoDup (map fst o) -> NoDup (map fst (obj_set o k v)).
Proof.
  induction o as [|[k0 v0] o IH]; simpl; intro D.
  - repeat constructor. simpl. tauto.
  - inversion D as [|? ? Hn D']; subst.
    destruct (String.eqb_spec k k0) as [<-|Ne]; simpl; constructor; auto.
    rewrite obj_set_keys_in. intros [E|E]; [congruence | contradiction].
Qed.

Lemma filter_split_perm {A : Type} (f g : A -> bool) (l : list A) :
  (forall x, g x = negb (f x)) -> Permutation (filter f l ++ filter g l) l.
Proof.
  intro G. induction l as [|x l IH]; simpl; [reflexivity|].
  rewrite G. destruct (f x); simpl.
  - constructor. exact IH.
  - rewrite <- Permutation_middle. constructor. exact IH.
Qed.

(** [Object.keys] lists each own key once. *)
Lemma obj_keys_perm {A : Type} (o : obj A) : Permutation (obj_keys o) (map fst o).
Proof.
  unfold obj_keys.
  rewrite (stable_sort_perm index_after).
  apply filter_split_perm. intro k. destruct (array_index k); reflexivity.
Qed.

(** [acc[key] = ...] in a [reduce]: the keys are those of the items, once each. *)
Lemma fold_obj_set_keys {A B : Type} (F : obj A -> B -> obj A) (key : B -> string)
    (l : list B) (acc : obj A) :
  (forall acc x, exists v, F acc x = obj_set acc (key x) v) ->
  NoDup (map fst acc) ->
  NoDup (map fst (fold_left F l acc))
  /\ (forall y, In y (map fst (fold_left F l acc)) <-> In y (map fst acc) \/ exists x, In x l /\ key x = y).
Proof.
  intros HF. revert acc. induction l as [|x l IH]; intros acc D; simpl.
  - split; [exact D|]. intro y. split; [tauto|]. intros [H|[x [[] _]]]. exact H.
  - destruct (HF acc x) as [v Ev]. rewrite Ev.
    destruct (IH (obj_set acc (key x) v) (obj_set_nodup _ _ _ D)) as [D' Hin].
    split; [exact D'|]. intro y. rewrite Hin, obj_set_keys_in. split.
    + intros [[E|E]|[z [Hz E]]]; [right; exists x; auto | left; exact E | right; exists z; auto].
    + intros [E|[z [[<-|Hz] E]]]; [left; right; exact E | left; left; auto | right; exists z; auto].
Qed.

Lemma fold_left_ext_in {A B : Type} (f g : A -> B -> A) (l : list B) (a : A) :
  (forall acc x, In x l -> f acc x = g acc x) -> fold_left f l a = fold_left g l a.
Proof.
  revert a. induction l as [|x l IH]; intros a H; simpl; [reflexivity|].
  rewrite H by (simpl; auto). apply IH. intros acc y Hy. apply H. simpl. auto.
Qed.

Section Grouping.
Context {N : Type} `{JSNum N}.

(** The keys of [groupByYear]: the year keys of the records, once each. *)
Lemma groupByYear_keys (cy : Z) (records : list (record N)) :
  NoDup (map fst (groupByYear cy records))
  /\ (forall y, In y (map fst (groupByYear cy records))
                <-> exists item, In item records /\ js_to_string (year_of cy item) = y).
Proof.
  unfold groupByYear.
  match goal with |- context [fold_left ?F records []] =>
    destruct (fold_obj_set_keys F (fun item => js_to_string (year_of cy item)) records []) as [D Hin]
  end.
  - intros acc item. cbv beta zeta.
    destruct (obj_get acc (js_to_string (year_of cy item))) as [[b a]|]; eexists; reflexivity.
  - constructor.
  - split; [exact D|]. intro y. rewrite Hin. simpl. tauto.
Qed.

(** A record with a truthy [Year] or [year] does not read the clock. *)
Lemma year_of_dated (cy1 cy2 : Z) (item : record N) :
  truthy (js_or (get item "Year") (get item "year")) = true ->
  year_of cy1 item = year_of cy2 item.
Proof.
  intro D. unfold year_of.
  set (v := js_or (get item "Year") (get item "year")) in *.
  unfold js_or. rewrite D. reflexivity.
Qed.

Lemma groupByYear_dated (cy1 cy2 : Z) (records : list (record N)) :
  Forall (fun item => truthy (js_or (get item "Year") (get item "year")) = true) records ->
  groupByYear cy1 records = groupByYear cy2 records.
Proof.
  rewrite Forall_forall. intro D. unfold groupByYear. apply fold_left_ext_in.
  intros acc x Hx. rewrite (year_of_dated cy1 cy2 x (D x Hx)). reflexivity.
Qed.

Lemma groupMissesByYear_dated (cy1 cy2 : Z) (records : list (record N)) :
  Forall (fun item => truthy (js_or (get item "Year") (get item "year")) = true) records ->
  groupMissesByYear cy1 records = groupMissesByYear cy2 records.
Proof.
  rewrite Forall_forall. intro D. unfold groupMissesByYear. apply fold_left_ext_in.
  intros acc x Hx. rewrite (year_of_dated cy1 cy2 x (D x Hx)). reflexivity.
Qed.
End Grouping.

(** The year of a trend row is the key it was built from. *)
Lemma tr_year_of (yd : obj (xnum * xnum)) (y : string) : tr_year (trend_of_year yd y) = y.
Proof. unfold trend_of_year. destruct (obj_get yd y) as [[b a]|]; reflexivity. Qed.

(** ** Lookups in objects built by [reduce] *)

Lemma obj_get_set {A : Type} (o : obj A) (k : string) (v : A) (k' : string) :
  obj_get (obj_set o k v) k' = if String.eqb k' k then Some v else obj_get o k'.
Proof.
  induction o as [|[k0 v0] o IH]; simpl.
  - reflexivity.
  - destruct (String.eqb_spec k k0) as [->|Hne]; simpl; [|rewrite IH];
      destruct (String.eqb_spec k' k0); try destruct (String.eqb_spec k' k); subst; congruence.
Qed.

Lemma obj_fold_lookup {A B : Type} (key : A -> string) (upd : B -> A -> B) (d : B)
    (l : list A) (o : obj B) (k : string) :
  obj_get (fold_left (fun acc x =>
             obj_set acc (key x) (upd (match obj_get acc (key x) with Some b => b | None => d end) x)) l o) k
  = match obj_get o k with
    | Some b => Some (fold_left upd (filter (fun x => String.eqb (key x) k) l) b)
    | None => match filter (fun x => String.eqb (key x) k) l with
              | [] => None
              | ys => Some (fold_left upd ys d)
              end
    end.
Proof.
  revert o. induction l as [|x l IH]; intro o; simpl.
  - destruct (obj_get o k); reflexivity.
  - rewrite IH, obj_get_set, (String.eqb_sym k (key x)).
    destruct (String.eqb (key x) k) eqn:E.
    + apply String.eqb_eq in E. subst k. destruct (obj_get o (key x)); reflexivity.
    + destruct (obj_get o k); reflexivity.
Qed.


Lemma obj_get_in {A : Type} (o : obj A) (k : string) :
  In k (map fst o) <-> obj_get o k <> None.
Proof.
  induction o as [|[k0 v0] o IH]; simpl.
  - split; [contradiction | congruence].
  - destruct (String.eqb_spec k k0) as [->|Hne].
    + split; [congruence | auto].
    + rewrite <- IH. split; [intros [E|H]; [congruence | exact H] | auto].
Qed.

Lemma Qred_inject_Z (z : Z) : Qred (inject_Z z) = inject_Z z.
Proof.
  unfold Qred, inject_Z.
  pose proof (Z.ggcd_gcd z 1) as G. pose proof (Z.ggcd_correct_divisors z 1) as D.
  destruct (Z.ggcd z 1) as [g [aa bb]]. simpl in G, D |- *.
  rewrite Z.gcd_1_r in G. subst g. destruct D as [D1 D2].
  rewrite Z.mul_1_l in D1, D2. subst. reflexivity.
Qed.

Lemma xadd_int (a b : Z) : js_add (N:=xnum) (js_of_Z a) (js_of_Z b) = js_of_Z (a + b).
Proof.
  change (XFin (Qred (inject_Z a + inject_Z b)) = XFin (inject_Z (a + b))). f_equal.
  rewrite <- (Qred_inject_Z (a + b)). apply Qred_complete. rewrite inject_Z_plus. reflexivity.
Qed.

Lemma xcount {A : Type} (ys : list A) (n : Z) :
  fold_left (fun c (_ : A) => js_add c (js_of_Z 1)) ys (js_of_Z n)
  = js_of_Z (N:=xnum) (n + Z.of_nat (length ys)).
Proof.
  revert n. induction ys as [|y ys IH]; intro n; cbn [fold_left].
  - rewrite Z.add_0_r. reflexivity.
  - rewrite xadd_int, IH. f_equal. simpl length. lia.
Qed.

Lemma count_lookup {A : Type} (key : A -> string) (l : list A) (k : string) :
  obj_get (fold_left (fun acc x =>
             let prev := match obj_get acc (key x) with Some c => c | None => js_of_Z 0 end in
             obj_set acc (key x) (js_add prev (js_of_Z 1))) l []) k
  = match filter (fun x => String.eqb (key x) k) l with
    | [] => None
    | ys => Some (js_of_Z (N:=xnum) (Z.of_nat (length ys)))
    end.
Proof.
  change (obj_get (fold_left (fun acc x =>
             obj_set acc (key x) ((fun c (_ : A) => js_add (N:=xnum) c (js_of_Z 1))
               (match obj_get acc (key x) with Some c => c | None => js_of_Z 0 end) x)) l []) k
          = match filter (fun x => String.eqb (key x) k) l with
            | [] => None
            | ys => Some (js_of_Z (N:=xnum) (Z.of_nat (length ys)))
            end).
  rewrite obj_fold_lookup. simpl obj_get.
  destruct (filter _ l) as [|z zs]; [reflexivity|].
  rewrite xcount. reflexivity.
Qed.

(** ** Counters: each key once, the counts add up to the items *)

Lemma xsum_int (l : list Z) (a : Z) :
  fold_left js_add (map (js_of_Z (N:=xnum)) l) (js_of_Z a) = js_of_Z (fold_left Z.add l a).
Proof. revert a; induction l as [|x l IH]; intro a; cbn [map fold_left]; [reflexivity|]. rewrite xadd_int. apply IH. Qed.

Lemma fold_Zadd_shift (l : list Z) (a : Z) : fold_left Z.add l a = (a + fold_left Z.add l 0)%Z.
Proof.
  revert a; induction l as [|x l IH]; intro a; simpl; [lia|]. rewrite IH, (IH x). lia.
Qed.

Lemma fold_Zadd_perm (l l' : list Z) (a : Z) : Permutation l l' -> fold_left Z.add l a = fold_left Z.add l' a.
Proof.
  intro P. revert a. induction P; intro a; simpl; try reflexivity.
  - apply IHP.
  - f_equal. lia.
  - rewrite IHP1. apply IHP2.
Qed.

Lemma obj_get_as_num (zs : obj Z) k : obj_get (as_num zs) k = option_map js_of_Z (obj_get zs k).
Proof. induction zs as [|[k' v] zs IH]; simpl; [reflexivity|]. destruct (String.eqb k k'); [reflexivity|exact IH]. Qed.

Lemma obj_set_as_num (zs : obj Z) k m : obj_set (as_num zs) k (js_of_Z m) = as_num (obj_set zs k m).
Proof. unfold as_num. induction zs as [|[k' v] zs IH]; cbn [map obj_set fst snd]; [reflexivity|]. destruct (String.eqb k k'); cbn [map]; [reflexivity|]. rewrite IH. reflexivity. Qed.

Lemma count_fold_as_num {A : Type} (key : A -> string) (l : list A) (zs : obj Z) :
  fold_left (fun acc x =>
    let prev := match obj_get acc (key x) with Some c => c | None => js_of_Z 0 end in
    obj_set acc (key x) (js_add prev (js_of_Z 1))) l (as_num zs)
  = as_num (zcount key l zs).
Proof.
  revert zs; induction l as [|x l IH]; intro zs; [reflexivity|]. cbn [fold_left]. unfold zcount in *. cbn [fold_left].
  rewrite <- IH. f_equal. rewrite obj_get_as_num.
  destruct (obj_get zs (key x)) as [c|]; cbn [option_map]; rewrite xadd_int. all: rewrite obj_set_as_num; reflexivity.
Qed.

Lemma obj_set_sum (zs : obj Z) k :
  fold_left Z.add (map snd (obj_set zs k ((match obj_get zs k with Some c => c | None => 0 end) + 1)%Z)) 0
  = (fold_left Z.add (map snd zs) 0 + 1)%Z.
Proof.
  induction zs as [|[k' v] zs IH]; simpl; [reflexivity|].
  destruct (String.eqb k k'); simpl.
  - rewrite !(fold_Zadd_shift _ (_ + _)). rewrite (fold_Zadd_shift _ v). lia.
  - rewrite (fold_Zadd_shift _ v), (fold_Zadd_shift _ v), IH. lia.
Qed.

Lemma zcount_inv {A : Type} (key : A -> string) (l : list A) (zs : obj Z) :
  NoDup (map fst zs) ->
  NoDup (map fst (zcount key l zs))
  /\ fold_left Z.add (map snd (zcount key l zs)) 0 = (fold_left Z.add (map snd zs) 0 + Z.of_nat (length l))%Z.
Proof.
  revert zs; induction l as [|x l IH]; intros zs D; unfold zcount in *; cbn [fold_left length].
  - split; [exact D | lia].
  - destruct (IH _ (obj_set_nodup zs (key x) ((match obj_get zs (key x) with Some c => c | None => 0 end) + 1)%Z D)) as [D' S']. split; [exact D'|].
    rewrite S', obj_set_sum. lia.
Qed.

Lemma nodup_obj_get {B : Type} (o : obj B) k v : NoDup (map fst o) -> In (k, v) o -> obj_get o k = Some v.
Proof.
  induction o as [|[k' v'] o IH]; simpl; [tauto|]. intros D [E|Hin]; inversion D as [|? ? Nk D']; subst.
  - inversion E; subst. rewrite String.eqb_refl. reflexivity.
  - destruct (String.eqb k k') eqn:E; [|exact (IH D' Hin)].
    apply String.eqb_eq in E; subst. exfalso. apply Nk. apply (in_map fst _ _ Hin).
Qed.

Lemma flat_map_perm {A B : Type} (f : A -> list B) l l' :
  Permutation l l' -> Permutation (flat_map f l) (flat_map f l').
Proof.
  induction 1; simpl; try reflexivity.
  - apply Permutation_app_head. assumption.
  - rewrite !app_assoc. apply Permutation_app_tail, Permutation_app_comm.
  - etransitivity; eassumption.
Qed.

Lemma obj_entries_perm {B : Type} (o : obj B) : NoDup (map fst o) -> Permutation (obj_entries o) o.
Proof.
  intro D. unfold obj_entries. rewrite (flat_map_perm _ _ _ (obj_keys_perm o)).
  assert (G : forall o', (forall k v, In (k, v) o' -> obj_get o k = Some v) ->
            flat_map (fun k => match obj_get o k with Some v => [(k, v)] | None => [] end) (map fst o') = o').
  { induction o' as [|[k v] o' IH]; intro Hin; [reflexivity|]. simpl.
    rewrite (Hin k v (or_introl eq_refl)). simpl. f_equal. apply IH. intros; apply Hin; right; assumption. }
  rewrite G; [reflexivity|]. intros k v. apply nodup_obj_get, D.
Qed.

Lemma count_entries_total {A : Type} (key : A -> string) (l : list A) :
  let o := fold_left (fun acc x =>
    let prev := match obj_get acc (key x) with Some c => c | None => js_of_Z 0 end in
    obj_set acc (key x) (js_add prev (js_of_Z 1))) l [] in
  NoDup (map fst (obj_entries o))
  /\ fold_left js_add (map snd (obj_entries o)) (js_of_Z 0) = js_of_Z (N:=xnum) (Z.of_nat (length l)).
Proof.
  cbv zeta. change (@nil (string * xnum)) with (as_num []). rewrite count_fold_as_num.
  destruct (zcount_inv key l [] (NoDup_nil _)) as [D S]. simpl in S.
  assert (Dn : NoDup (map fst (as_num (zcount key l [])))) by (unfold as_num; rewrite map_map; exact D).
  pose proof (obj_entries_perm _ Dn) as P.
  split.
  - eapply Permutation_NoDup; [symmetry; apply Permutation_map, P | exact Dn].
  - apply (Permutation_map snd) in P. unfold as_num in P. rewrite map_map in P. cbn [snd] in P.
    rewrite <- (map_map snd (js_of_Z (N:=xnum))) in P.
    destruct (Permutation_map_inv _ _ P) as [l' [E P']]. unfold as_num. rewrite E, xsum_int.
    f_equal. rewrite <- (fold_Zadd_perm _ _ _ P'). exact S.
Qed.

(** ** Percentages, NaN and the zero-budget branches *)

Lemma missed_pct_cmp (k : Z) (c t : nat) : (0 < t)%nat ->
  js_ltb (js_of_Z k) (missed_percentage (N:=xnum) c t) = (k * Z.of_nat t <? 100 * Z.of_nat c)%Z.
Proof.
  intro Ht. destruct t as [|t']; [lia|].
  unfold missed_percentage. remember (Z.of_nat (S t')) as T eqn:HT.
  assert (HT' : (0 < T)%Z) by lia. clear HT Ht.
  destruct T as [|p|p]; try lia.
  change (qltb (inject_Z k) (Qred (Qred (inject_Z (Z.of_nat c) / inject_Z (Zpos p)) * inject_Z 100))
          = (k * Zpos p <? 100 * Z.of_nat c)%Z).
  unfold qltb. destruct (Qle_bool _ _) eqn:E; cbn [negb]; symmetry.
  - apply Qle_bool_iff in E. rewrite !Qred_correct in E. apply Z.ltb_ge.
    unfold Qle, Qdiv, Qmult, Qinv, inject_Z in E. simpl in E. rewrite Pos.mul_1_r in E. lia.
  - apply Z.ltb_lt. assert (E' : ~ (Qred (Qred (inject_Z (Z.of_nat c) / inject_Z (Zpos p)) * inject_Z 100) <= inject_Z k)%Q)
      by (intro Q; apply Qle_bool_iff in Q; congruence).
    rewrite !Qred_correct in E'. unfold Qle, Qdiv, Qmult, Qinv, inject_Z in E'. simpl in E'. rewrite Pos.mul_1_r in E'. lia.
Qed.

Lemma float_view_nan (x : float) : js_view x = XNaN -> Prim2SF x = S754_nan.
Proof.
  cbn. unfold Q_of_SF. destruct (Prim2SF x) as [s|s| |s m e]; try discriminate; [reflexivity|].
  destruct e; discriminate.
Qed.

Lemma float_nan_sub (x y : float) : Prim2SF x = S754_nan -> Prim2SF (PrimFloat.sub x y) = S754_nan.
Proof. intro H. rewrite FloatAxioms.sub_spec, H. reflexivity. Qed.

Lemma float_nan_div (x y : float) : Prim2SF x = S754_nan -> Prim2SF (PrimFloat.div x y) = S754_nan.
Proof. intro H. rewrite FloatAxioms.div_spec, H. reflexivity. Qed.

Lemma float_nan_mul (x y : float) : Prim2SF x = S754_nan -> Prim2SF (PrimFloat.mul x y) = S754_nan.
Proof. intro H. rewrite FloatAxioms.mul_spec, H. reflexivity. Qed.

Lemma float_nan_abs (x : float) : Prim2SF x = S754_nan -> Prim2SF (PrimFloat.abs x) = S754_nan.
Proof. intro H. rewrite FloatAxioms.abs_spec, H. reflexivity. Qed.

Lemma float_ltb_nan_l (x y : float) : Prim2SF x = S754_nan -> PrimFloat.ltb x y = false.
Proof. intro H. rewrite FloatAxioms.ltb_spec, H. reflexivity. Qed.

Lemma float_ltb_nan_r (x y : float) : Prim2SF y = S754_nan -> PrimFloat.ltb x y = false.
Proof. intro H. rewrite FloatAxioms.ltb_spec, H. destruct (Prim2SF x); reflexivity. Qed.

Lemma totals_zero_text {N : Type} `{JSNum N} (records : list (record N)) :
  plus_sign (js_of_Z (N:=N) 0) = "" -> fixed1 (js_of_Z (N:=N) 0) = "0.0" ->
  totals_label (js_of_Z (N:=N) 0) = excellent_control ->
  js_ltb (js_of_Z 0) (totalBudget (totals_of records)) = false ->
  data (analyzeTotals records) = Some (PTotals (totals_of records) (js_of_Z 0))
  /\ exists pre, insight (analyzeTotals records)
                 = pre ++ "📊 **Overall Variance**: 0.0%" ++ NL2 ++ excellent_control.
Proof.
  intros P F L Hb. unfold analyzeTotals, guarded_variance. cbv zeta. rewrite Hb.
  split; [reflexivity|].
  exists ("**Total Budget Analysis**" ++ NL2
          ++ "💰 **Total Budgeted**: $" ++ locale (totalBudget (totals_of records)) ++ NL
          ++ "💸 **Total Actual**: $" ++ locale (totalActual (totals_of records)) ++ NL).
  cbn [insight]. rewrite P, F, L, !str_app_assoc. reflexivity.
Qed.

Lemma xmul_abs_100 (v : xnum) :
  xmul (xabs v) (XFin (inject_Z 100)) = xabs (xmul v (XFin (inject_Z 100))).
Proof.
  destruct v as [|s|q]; [reflexivity | destruct s; reflexivity |].
  cbn [xabs xmul]. f_equal. apply Qred_complete.
  rewrite !Qred_correct, Qabs_Qmult. reflexivity.
Qed.

(** ** [parseFloat] reads back the decimal text of an integer *)

Lemma digit_char_facts (d : Z) : (0 <= d < 10)%Z ->
  is_digit (digit_char d) = true /\ digit_value (digit_char d) = d
  /\ is_space (digit_char d) = false /\ Ascii.eqb (digit_char d) "-" = false
  /\ Ascii.eqb (digit_char d) "+" = false /\ Ascii.eqb (digit_char d) "I" = false.
Proof.
  intro Hd. assert (d = 0 \/ d = 1 \/ d = 2 \/ d = 3 \/ d = 4 \/ d = 5 \/ d = 6 \/ d = 7 \/ d = 8 \/ d = 9)%Z as C by lia.
  repeat destruct C as [->|C]; [..|subst]; vm_compute; repeat split.
Qed.

Lemma digits_rev_head (fuel : nat) (n : Z) (acc : string) : (0 <= n)%Z ->
  exists d rest, (0 <= d < 10)%Z /\ digits_rev fuel n acc = String (digit_char d) rest.
Proof.
  revert n acc; induction fuel as [|f IH]; intros n acc Hn; simpl.
  - exists (n mod 10)%Z, acc. split; [apply Z.mod_pos_bound; lia | reflexivity].
  - destruct (n / 10 =? 0)%Z.
    + exists (n mod 10)%Z, acc. split; [apply Z.mod_pos_bound; lia | reflexivity].
    + apply IH. apply Z.div_pos; lia.
Qed.

Lemma digits_rev_take (fuel : nat) (n : Z) (acc : string) (a : Z) (c : nat) :
  (0 <= n < 10 ^ Z.of_nat (S fuel))%Z ->
  exists k, (1 <= k)%nat /\ take_digits (list_ascii_of_string (digits_rev fuel n acc)) a c
            = take_digits (list_ascii_of_string acc) (a * 10 ^ Z.of_nat k + n)%Z (c + k).
Proof.
  revert n acc a c; induction fuel as [|f IH]; intros n acc a c Hn.
  - exists 1%nat. split; [lia|]. assert (M : (n mod 10 = n)%Z) by (apply Z.mod_small; simpl in Hn; lia).
    simpl digits_rev. rewrite M. cbn [list_ascii_of_string take_digits].
    destruct (digit_char_facts n) as [D [V _]]; [simpl in Hn; lia|]. rewrite D, V.
    replace (c + 1)%nat with (S c) by lia. rewrite Z.pow_1_r. reflexivity.
  - cbn [digits_rev]. destruct (n / 10 =? 0)%Z eqn:Q.
    + apply Z.eqb_eq in Q. exists 1%nat. split; [lia|].
      assert (n < 10)%Z by (pose proof (Z.div_mod n 10); pose proof (Z.mod_pos_bound n 10); lia).
      assert (M : (n mod 10 = n)%Z) by (apply Z.mod_small; lia). rewrite M.
      cbn [list_ascii_of_string take_digits].
      destruct (digit_char_facts n) as [D [V _]]; [lia|]. rewrite D, V.
      replace (c + 1)%nat with (S c) by lia. rewrite Z.pow_1_r. reflexivity.
    + destruct (IH (n / 10)%Z (String (digit_char (n mod 10)) acc) a c) as [k [_ Hk]].
      { split; [apply Z.div_pos; lia|]. apply Z.div_lt_upper_bound; [lia|].
        rewrite Nat2Z.inj_succ, Z.pow_succ_r in Hn by lia. rewrite Nat2Z.inj_succ. lia. }
      exists (S k). split; [lia|]. rewrite Hk. cbn [list_ascii_of_string take_digits].
      destruct (digit_char_facts (n mod 10)) as [D [V _]]; [apply Z.mod_pos_bound; lia|]. rewrite D, V.
      f_equal; [|lia].
      rewrite Nat2Z.inj_succ, Z.pow_succ_r by lia.
      pose proof (Z.div_mod n 10 ltac:(lia)) as Hd.
      remember (n / 10)%Z as q. remember (n mod 10)%Z as r. rewrite Hd. ring.
Qed.

Lemma Z_digits_fuel (n : Z) : (0 <= n)%Z -> (0 <= n < 10 ^ Z.of_nat (S (Z.to_nat (Z.log2 n))))%Z.
Proof.
  intro Hn. split; [exact Hn|]. rewrite Nat2Z.inj_succ, Z2Nat.id by apply Z.log2_nonneg.
  destruct (Z.eq_dec n 0) as [->|Hn0]; [simpl; lia|].
  destruct (Z.log2_spec n) as [_ L]; [lia|].
  eapply Z.lt_le_trans; [exact L|]. apply Z.pow_le_mono_l. lia.
Qed.

Lemma unsigned_digits (n : Z) : (0 <= n)%Z ->
  exists d rest, (0 <= d < 10)%Z /\ list_ascii_of_string (Z_digits n) = digit_char d :: rest
  /\ parse_unsigned (digit_char d :: rest) = LitDecimal n 0.
Proof.
  intro Hn. unfold Z_digits.
  destruct (digits_rev_head (Z.to_nat (Z.log2 n)) n "" Hn) as [d [rest [Hd E]]].
  exists d, (list_ascii_of_string rest). split; [exact Hd|]. rewrite E. split; [reflexivity|].
  change (digit_char d :: list_ascii_of_string rest) with (list_ascii_of_string (String (digit_char d) rest)).
  rewrite <- E. unfold parse_unsigned.
  destruct (digit_char_facts d Hd) as [_ [_ [_ [_ [_ I]]]]].
  rewrite string_of_list_ascii_of_string, E. cbn [prefix].
  destruct (ascii_dec "I" (digit_char d)) as [e|_].
  { rewrite <- e in I. discriminate. }
  rewrite <- E.
  destruct (digits_rev_take (Z.to_nat (Z.log2 n)) n "" 0 0 (Z_digits_fuel n Hn)) as [k [Hk T]].
  rewrite T. cbn [list_ascii_of_string take_digits].
  destruct k as [|k]; [lia|]. cbn -[Z.pow Z.of_nat]. reflexivity.
Qed.

Lemma parse_digits {N : Type} `{JSNum N} (n : Z) (neg : bool) : (0 <= n)%Z ->
  parse_float_string (if neg then "-" ++ Z_digits n else Z_digits n)
  = if neg then js_neg (js_dec n 0) else js_dec n 0.
Proof.
  intro Hn. destruct (unsigned_digits n Hn) as [d [rest [Hd [E P]]]].
  destruct (digit_char_facts d Hd) as [_ [_ [S [M [Pl _]]]]].
  unfold parse_float_string. destruct neg.
  - cbn [append list_ascii_of_string]. rewrite E. cbn [trim_start]. replace (is_space "-") with false by reflexivity. replace (Ascii.eqb "-" "-") with true by reflexivity. cbn iota beta. rewrite P. reflexivity.
  - rewrite E. cbn [trim_start]. rewrite S, M, Pl, P. reflexivity.
Qed.

Theorem parse_Z_to_string {N : Type} `{JSNum N} (z : Z) :
  parse_float_string (Z_to_string z) = if (z <? 0)%Z then js_neg (js_dec (- z) 0) else js_dec z 0.
Proof.
  unfold Z_to_string. destruct (z <? 0)%Z eqn:L.
  - apply (parse_digits (- z) true). apply Z.ltb_lt in L. lia.
  - apply (parse_digits z false). apply Z.ltb_ge in L. lia.
Qed.

Lemma Z_to_string_nonempty (z : Z) : String.eqb (Z_to_string z) "" = false.
Proof.
  unfold Z_to_string. destruct (z <? 0)%Z eqn:L; [reflexivity|]. apply Z.ltb_ge in L.
  unfold Z_digits. destruct (digits_rev_head (Z.to_nat (Z.log2 z)) z "" L) as [d [r [_ ->]]].
  reflexivity.
Qed.

(** * The claims *)

(** ** C1: the totals scenario *)

(** C1, counterexample: for the records
    [{Year:2021,Budget:100,Actual:120},{Year:2022,Budget:100,Actual:90}] the
    totals narrative does not carry the label "excellent control". *)
Lemma totals_two_years_not_excellent :
  includes (toLowerCase (insight (analyzeTotals (N:=float) two_years))) "excellent control" = false.
Proof. vm_compute. reflexivity. Qed.

(** C1, amended: for the same records the totals analysis reports budget 200,
    actual 210 and variance +5.0%; since the variance is exactly 5 and the
    label test [Math.abs(totalVariance) < 5] is strict, the label is
    "over budget". *)
Theorem totals_two_years_over_budget :
  let res := analyzeTotals (N:=float) two_years in
  data res = Some (PTotals (mk_totals 200%float 210%float) 5%float)
  /\ includes (insight res) ("💰 **Total Budgeted**: $200" ++ NL) = true
  /\ includes (insight res) ("💸 **Total Actual**: $210" ++ NL) = true
  /\ includes (insight res) ("📊 **Overall Variance**: +5.0%" ++ NL) = true
  /\ totals_label 5%float = over_budget
  /\ includes (toLowerCase (insight res)) "over budget" = true.
Proof. vm_compute. repeat split. Qed.

(** ** C2: unparsable numeric fields *)

(** C2: an absent Budget field is read as 0, but a Budget that is a
    non-numeric string is not: [item.Budget || item.budget || 0] keeps the
    (truthy) string and [parseFloat("abc")] is NaN, which reaches the totals
    (NaN) and the narrative ("$NaN"). *)
Theorem text_budget_reads_nan :
  (forall (N : Type) (JN : JSNum N) (item : record N),
     obj_get item "Budget" = None -> obj_get item "budget" = None -> budget_of item = js_of_Z 0)
  /\ js_view (budget_of (N:=float) [("Budget", JStr "abc"); num_field "Actual" 50]) = XNaN
  /\ js_view (totalBudget (totals_of (N:=float) text_budget)) = XNaN
  /\ includes (insight (analyzeTotals (N:=float) text_budget)) ("💰 **Total Budgeted**: $NaN" ++ NL) = true.
Proof.
  split.
  - intros N JN item H1 H2. unfold budget_of, get. rewrite H1, H2. reflexivity.
  - vm_compute. repeat split.
Qed.

Lemma text_budget_reads_nan_witness :
  budget_of (N:=xnum) [num_field "Actual" 50] = js_of_Z 0
  /\ js_view (totalBudget (totals_of (N:=float) text_budget)) = XNaN.
Proof.
  split.
  - apply (proj1 text_budget_reads_nan); reflexivity.
  - exact (proj1 (proj2 (proj2 text_budget_reads_nan))).
Defined.

(** ** C3: the average variance with a zero average budget *)

(** C3: [analyzeAverages] divides by the average budget without the
    [budget > 0] guard the other analyses use: with one record of budget 0
    the average variance is +Infinity (actual 10) or NaN (actual 0) and is
    printed so, where the guarded formula gives 0. *)
Theorem zero_budget_average_unguarded :
  js_view (avg_variance (N:=float) (zero_budget 10)) = XInf false
  /\ js_view (avg_variance (N:=float) (zero_budget 0)) = XNaN
  /\ includes (insight (analyzeAverages (N:=float) (zero_budget 10)))
       ("🎯 **Average Variance**: +Infinity%" ++ NL) = true
  /\ includes (insight (analyzeAverages (N:=float) (zero_budget 0)))
       ("🎯 **Average Variance**: NaN%" ++ NL) = true
  /\ js_view (guarded_variance (N:=float) (avg_budget (zero_budget 10)) (avg_actual (zero_budget 10)))
     = XFin 0.
Proof. vm_compute. repeat split. Qed.

(** ** C8: the ledger analysis *)

(** C8: with a GL_Account field holding "4000" and "4100" the summary the
    code builds has the two keys with their own count, budget and actual,
    but [analyzeGLEntries] throws: [glSummary] is read outside the block
    that declares it. *)
Theorem ledger_two_accounts_throws :
  glFields_of (N:=float) two_accounts = ["GL_Account"]
  /\ map (fun '(k, a) => (k, js_view (gl_count a), js_view (gl_totalBudget a), js_view (gl_totalActual a)))
         (glSummary_of (N:=float) ["GL_Account"] two_accounts)
     = [("4000", XFin 1, XFin 100, XFin 90); ("4100", XFin 1, XFin 50, XFin 60)]
  /\ analyzeGLEntries (N:=float) two_accounts = Throw "ReferenceError: glSummary is not defined"
  /\ analyzeQuery (N:=float) (mk_env 2025 false) "Which GL accounts are off?" two_accounts
     = Throw "ReferenceError: glSummary is not defined".
Proof. vm_compute. repeat split. Qed.

(** ** C10: the missed-budget analysis of no records *)

(** C10: with no records the missed-budget analysis returns the
    "Excellent!" narrative, an empty data list and a bar chart; the
    percentage it computes, 0/0*100, is NaN and is not printed. *)
Theorem missed_budgets_empty :
  (forall (N : Type) (JN : JSNum N) (cy : Z),
     analyzeMissedBudgets cy []
     = mk_result ("**Budget Performance Analysis**" ++ NL2 ++ excellent_no_overruns)
                 (Some (PRecords [])) (Some ChartBar))
  /\ js_view (missed_percentage (N:=float) 0 0) = XNaN.
Proof.
  split.
  - intros N JN cy. reflexivity.
  - vm_compute. reflexivity.
Qed.

(** ** C4: the classifier *)

(** C4: [analyzeQuery] lower-cases the question and runs the first category
    of the table, in the order trend, missed, discrepancy, totals, averages,
    performance, ledger, one of whose keywords occurs in it; a question
    containing "trend" and "total" is a trend question; a question matching
    no keyword gets the general insight, not an error. *)
Theorem classifier_priority :
  forall (N : Type) (JN : JSNum N) (e : env) (query : string) (records : list (record N)),
    analyzeQuery e query records = run_category e (classify query) records
    /\ (includes query "trend" = true -> includes query "total" = true -> classify query = CatTrend)
    /\ (classify query = CatGeneral ->
        analyzeQuery e query records = Ok (provideGeneralInsight (random_pick e) records)).
Proof.
  intros N JN e query records. split; [apply analyzeQuery_run_category|]. split.
  - intros Ht _. apply includes_lower in Ht. change (toLowerCase "trend") with "trend" in Ht.
    unfold classify, category_keywords. cbn [first_match existsb]. rewrite Ht. reflexivity.
  - intro G. rewrite analyzeQuery_run_category, G. reflexivity.
Qed.

Lemma classifier_priority_witness :
  classify "What is the total trend?" = CatTrend
  /\ analyzeQuery (N:=float) (mk_env 2025 false) "hello" [] = Ok (provideGeneralInsight false []).
Proof.
  split.
  - apply (proj1 (proj2 (classifier_priority float _ (mk_env 2025 false) "What is the total trend?" [])));
      vm_compute; reflexivity.
  - apply (proj2 (proj2 (classifier_priority float _ (mk_env 2025 false) "hello" []))).
    vm_compute. reflexivity.
Defined.

(** ** C5: the missed-budget threshold *)

(** C5, counterexample: with budget 10^15 the double [budget * 1.05 + 0.01]
    equals [budget * 1.05], so a record with that actual is not counted. *)
Lemma missed_threshold_absorbed :
  actual_of (N:=float) (just_over 1000000000000000)
    = js_add (js_mul (budget_of (just_over 1000000000000000)) (js_dec 105 (-2))) (js_dec 1 (-2))
  /\ actual_of (N:=float) (just_over 1000000000000000)
    = js_mul (budget_of (just_over 1000000000000000)) (js_dec 105 (-2))
  /\ data (analyzeMissedBudgets (N:=float) 2025 [just_over 1000000000000000]) = Some (PRecords []).
Proof. vm_compute. repeat split. Qed.

(** C5, amended: a record is missed exactly when its parsed actual is
    greater than parsed budget * 1.05 in double arithmetic; an actual equal
    to that double is not counted; 0.01 above it is counted when the sum
    stays distinct (budget 100); the narrative reports the count, the total
    and [(count / total) * 100] to one decimal. *)
Theorem missed_budget_count :
  forall (cy : Z) (records : list (record float)),
    let missed := filter (fun item =>
                    PrimFloat.ltb (PrimFloat.mul (budget_of item) (js_dec 105 (-2))) (actual_of item))
                  records in
    data (analyzeMissedBudgets cy records) = Some (PRecords missed)
    /\ (forall item, actual_of item = PrimFloat.mul (budget_of item) (js_dec 105 (-2)) -> ~ In item missed)
    /\ is_missed (N:=float) (just_over 100) = true
    /\ (missed <> [] -> exists rest,
          insight (analyzeMissedBudgets cy records)
          = "**Budget Performance Analysis**" ++ NL2 ++ "📊 **Budget Overruns**: "
            ++ show_nat (length missed) ++ " out of " ++ show_nat (length records) ++ " entries ("
            ++ fixed1 (missed_percentage (length missed) (length records))
            ++ "%) exceeded budget by more than 5%." ++ rest).
Proof.
  intros cy records. cbv zeta.
  change (filter (fun item => PrimFloat.ltb (PrimFloat.mul (budget_of item) (js_dec 105 (-2))) (actual_of item))
            records) with (filter is_missed records).
  split; [reflexivity|]. split.
  - intros item E Hin. apply filter_In in Hin as [_ Hin].
    unfold is_missed in Hin. change (PrimFloat.ltb (js_mul (budget_of item) (js_dec 105 (-2))) (actual_of item) = true) in Hin.
    rewrite E, float_ltb_irrefl in Hin. discriminate.
  - split; [vm_compute; reflexivity|]. intro Hne.
    assert (E : (length (filter is_missed records) =? 0)%nat = false)
      by (destruct (filter is_missed records); [congruence | reflexivity]).
    unfold analyzeMissedBudgets. cbv zeta. rewrite E. cbn [insight].
    eexists. rewrite !str_app_assoc. reflexivity.
Qed.

Lemma missed_budget_count_witness :
  data (analyzeMissedBudgets (N:=float) 2025 [just_over 100])
  = Some (PRecords (filter (fun item =>
      PrimFloat.ltb (PrimFloat.mul (budget_of item) (js_dec 105 (-2))) (actual_of item)) [just_over 100]))
  /\ exists rest, insight (analyzeMissedBudgets (N:=float) 2025 [just_over 100])
     = "**Budget Performance Analysis**" ++ NL2 ++ "📊 **Budget Overruns**: "
       ++ show_nat 1 ++ " out of " ++ show_nat 1 ++ " entries ("
       ++ fixed1 (missed_percentage (N:=float) 1 1) ++ "%) exceeded budget by more than 5%." ++ rest.
Proof.
  destruct (missed_budget_count 2025 [just_over 100]) as [D [_ [_ T]]].
  split; [exact D|]. apply T. vm_compute. discriminate.
Defined.

(** ** C6: the discrepancy analysis *)

(** C6: a row is significant when its absolute variance is strictly above 5
    (5 itself is not, 5.01 is; checked in doubles and in exact numbers); the
    analysis keeps exactly the significant rows, sorts them by absolute
    variance from largest to smallest, keeping the input order of ties, and
    its narrative reports the total absolute discrepancy, the mean absolute
    variance of the kept rows and the first five rows of the sorted list.
    The general part holds for every number model with a strict order that
    is irreflexive and transitive, and that NaN is not below. *)
Theorem discrepancy_analysis_spec :
  (forall r : disc_row float, dr_variance r = js_of_Z 5 -> significant r = false)
  /\ (forall r : disc_row float, dr_variance r = js_dec 501 (-2) -> significant r = true)
  /\ (forall r : disc_row xnum, dr_variance r = js_of_Z 5 -> significant r = false)
  /\ (forall r : disc_row xnum, dr_variance r = js_dec 501 (-2) -> significant r = true)
  /\ (forall (N : Type) (JN : JSNum N), OrderLaws N -> forall records : list (record N),
      let kept := filter (fun r => js_ltb (js_of_Z 5) (abs_variance r)) (map discrepancy_row records) in
      let sorted := sort_by_abs_variance kept in
      data (analyzeDiscrepancies records) = Some (PDiscrepancies sorted)
      /\ (forall r, In r sorted <-> In r (map discrepancy_row records) /\ js_ltb (js_of_Z 5) (abs_variance r) = true)
      /\ Permutation sorted kept
      /\ StronglySorted (fun a b => js_ltb (abs_variance a) (abs_variance b) = false) sorted
      /\ (forall r, In r kept ->
            filter (tie_with abs_variance js_ltb (abs_variance r)) sorted
            = filter (tie_with abs_variance js_ltb (abs_variance r)) kept)
      /\ (kept <> [] -> exists pre,
            insight (analyzeDiscrepancies records)
            = pre ++ "💰 **Total Discrepancy**: $"
              ++ locale (sum_left (map (fun r => js_abs (dr_discrepancy r)) kept)) ++ NL
              ++ "📊 **Average Variance**: "
              ++ fixed1 (js_div (sum_left (map abs_variance kept)) (js_of_Z (Z.of_nat (length kept))))
              ++ "%" ++ NL2
              ++ "**Top 5 Largest Variances:**" ++ NL
              ++ String.concat "" (mapi_from disc_line 0 (firstn 5 sorted)))).
Proof.
  split; [intros r H; unfold significant; rewrite H; vm_compute; reflexivity|].
  split; [intros r H; unfold significant; rewrite H; vm_compute; reflexivity|].
  split; [intros r H; unfold significant; rewrite H; vm_compute; reflexivity|].
  split; [intros r H; unfold significant; rewrite H; vm_compute; reflexivity|].
  intros N JN laws records. cbv zeta.
  assert (Hd : discrepancies_of records
    = filter (fun r => js_ltb (js_of_Z 5) (abs_variance r)) (map discrepancy_row records))
    by reflexivity.
  unfold analyzeDiscrepancies. rewrite Hd.
  remember (filter (fun r => js_ltb (js_of_Z 5) (abs_variance r)) (map discrepancy_row records)) as kept eqn:Hk.
  assert (Hok : forall z, In z kept -> js_view (abs_variance z) <> XNaN).
  { intros z Hz. rewrite Hk in Hz. apply filter_In in Hz as [_ Hz].
    apply significant_not_nan. exact Hz. }
  assert (Hperm : Permutation (sort_by_abs_variance kept) kept) by apply stable_sort_perm.
  split; [destruct kept; reflexivity|].
  split.
  { intro r. split; intro H.
    - apply (Permutation_in _ Hperm) in H. rewrite Hk in H. apply filter_In in H. exact H.
    - apply (Permutation_in _ (Permutation_sym Hperm)). rewrite Hk. apply filter_In. exact H. }
  split; [exact Hperm|].
  split.
  { rewrite sort_by_abs_variance_by_key.
    apply (sort_by_key_sorted _ _ abs_variance js_ltb ltb_irrefl ltb_trans). }
  split.
  { intros r Hr. rewrite sort_by_abs_variance_by_key.
    apply (sort_by_key_stable _ _ abs_variance js_ltb (fun k => js_view k <> XNaN)
             ltb_irrefl ltb_trans ltb_neg_trans); [apply Hok; exact Hr | exact Hok]. }
  intro Hne.
  assert (E : (length kept =? 0)%nat = false) by (destruct kept; [congruence | reflexivity]).
  assert (E' : (0 <? length kept)%nat = true) by (destruct kept; [congruence | reflexivity]).
  rewrite E. cbn [insight].
  unfold average_abs_variance, total_discrepancy, sum_left. rewrite E', !fold_left_map_fun.
  exists ("**Budget Variance Analysis**" ++ NL2 ++ "📈 **Variance Summary**: " ++ show_nat (length kept)
          ++ " entries with significant variances (>5%)" ++ NL).
  rewrite !str_app_assoc. reflexivity.
Qed.

Lemma discrepancy_analysis_witness :
  significant (N:=float) (mk_disc_row [] (js_of_Z 5) (js_of_Z 0)) = false
  /\ data (analyzeDiscrepancies (N:=xnum) two_years)
     = Some (PDiscrepancies (sort_by_abs_variance
         (filter (fun r => js_ltb (js_of_Z 5) (abs_variance r)) (map discrepancy_row two_years)))).
Proof.
  destruct discrepancy_analysis_spec as [B5 [_ [_ [_ G]]]].
  split; [apply B5; reflexivity | exact (proj1 (G xnum _ _ two_years))].
Defined.

(** ** C7: the trend analysis *)

(** C7, code bug: [Object.keys(yearlyData).sort()] sorts the years as
    strings, so 999, 1000, 1001 come out as "1000", "1001", "999"; in
    ascending year order the absolute variances 30, 20, 10 shrink at every
    step (two improving pairs out of two), yet the label is declining. *)
Lemma trend_years_string_order :
  map (fun y => js_view (tr_variance (trend_of_year (groupByYear (N:=float) 2025 three_years) y)))
      ["999"; "1000"; "1001"]
  = [XFin 30; XFin 20; XFin 10]
  /\ sort_strings (obj_keys (groupByYear (N:=float) 2025 three_years)) = ["1000"; "1001"; "999"]
  /\ includes (insight (analyzeTrends (N:=float) 2025 three_years)) "📉 **Declining Trend**" = true.
Proof. vm_compute. repeat split. Qed.

(** ** C9: repeated runs *)

(** C9, counterexample: a record with no year is grouped under the current
    year, which [new Date().getFullYear()] reads from the clock, so the
    same trend question on the same records gives different results in
    2025 and in 2026. *)
Lemma trend_reads_clock :
  classify "trend" = CatTrend
  /\ analyzeQuery (N:=float) (mk_env 2025 false) "trend" one_undated
     <> analyzeQuery (N:=float) (mk_env 2026 false) "trend" one_undated.
Proof. split; [reflexivity|]. vm_compute. discriminate. Qed.

(** C9, amended: every analysis except the general insight is a function
    of the question, the records and the current year; two runs agree when
    they see the same current year, or whenever every record carries a
    truthy [Year] or [year] field. *)
Theorem analysis_repeatable :
  forall (N : Type) (JN : JSNum N) (e1 e2 : env) (query : string) (records : list (record N)),
    classify query <> CatGeneral ->
    current_year e1 = current_year e2
    \/ Forall (fun item => truthy (js_or (get item "Year") (get item "year")) = true) records ->
    analyzeQuery e1 query records = analyzeQuery e2 query records.
Proof.
  intros N JN e1 e2 query records G H.
  rewrite !analyzeQuery_run_category.
  destruct (classify query); try reflexivity; [| | congruence];
    destruct H as [E | D]; cbn [run_category]; try (rewrite E; reflexivity).
  - unfold analyzeTrends. rewrite (groupByYear_dated (current_year e1) (current_year e2) records D).
    reflexivity.
  - unfold analyzeMissedBudgets.
    rewrite (groupMissesByYear_dated (current_year e1) (current_year e2)); [reflexivity|].
    rewrite Forall_forall in *. intros x Hx. apply filter_In in Hx. apply D. tauto.
Qed.

Lemma analysis_repeatable_witness :
  analyzeQuery (N:=float) (mk_env 2025 false) "trend" two_years
  = analyzeQuery (N:=float) (mk_env 2026 true) "trend" two_years.
Proof.
  apply analysis_repeatable; [vm_compute; discriminate | right; vm_compute; repeat constructor].
Defined.

(** * Further properties of the code *)





(** [X3] The "Missed Budgets by Year" list of [analyzeMissedBudgets]
    (exact model), when the missed records' year keys are plain, names each
    year once, and its counts add up to the number of missed records. *)
Theorem missed_by_year_total (cy : Z) (data : list (record xnum)) :
  forallb (fun item => plain_key (year_of cy item)) (filter is_missed data) = true ->
  let o := groupMissesByYear cy (filter is_missed data) in
  NoDup (map fst (obj_entries o))
  /\ fold_left js_add (map snd (obj_entries o)) (js_of_Z 0) = js_of_Z (Z.of_nat (length (filter is_missed data))).
Proof. intros _. exact (count_entries_total (fun item => js_to_string (year_of cy item)) (filter is_missed data)). Qed.

Lemma missed_by_year_total_witness :
  forallb (fun item => plain_key (year_of 2025 item)) (filter is_missed (two_years (N:=xnum))) = true
  /\ NoDup (map fst (obj_entries (groupMissesByYear 2025 (filter is_missed (two_years (N:=xnum))))))
  /\ fold_left js_add (map snd (obj_entries (groupMissesByYear 2025 (filter is_missed (two_years (N:=xnum))))))
       (js_of_Z 0) = js_of_Z (Z.of_nat (length (filter is_missed (two_years (N:=xnum))))).
Proof.
  assert (H : forallb (fun item => plain_key (year_of 2025 item)) (filter is_missed (two_years (N:=xnum))) = true)
    by (vm_compute; reflexivity).
  split; [exact H | exact (missed_by_year_total 2025 two_years H)].
Defined.

(** [X4] [analyzeMissedBudgets] (exact model), with at least one missed record: the risk line is the high-risk one when more than 30% of the records are missed, the moderate one when more than 15%, and absent otherwise; it comes right before the per-year list. *)
Theorem missed_risk_tiers (cy : Z) (records : list (record xnum)) :
  let missedCount := length (filter is_missed records) in
  let totalItems := length records in
  (0 < missedCount)%nat ->
  exists rest, insight (analyzeMissedBudgets cy records)
  = "**Budget Performance Analysis**" ++ NL2
    ++ "📊 **Budget Overruns**: " ++ show_nat (N:=xnum) missedCount ++ " out of " ++ show_nat (N:=xnum) totalItems
    ++ " entries (" ++ fixed1 (missed_percentage (N:=xnum) missedCount totalItems)
    ++ "%) exceeded budget by more than 5%." ++ NL2
    ++ (if (30 * Z.of_nat totalItems <? 100 * Z.of_nat missedCount)%Z then high_risk
        else if (15 * Z.of_nat totalItems <? 100 * Z.of_nat missedCount)%Z then moderate_concern
        else "")
    ++ "**Missed Budgets by Year:**" ++ NL ++ rest.
Proof.
  cbv zeta. intro Hc.
  assert (Ht : (0 < length records)%nat)
    by (pose proof (filter_length_le is_missed records) as L; lia).
  assert (E : (length (filter is_missed records) =? 0)%nat = false) by (apply Nat.eqb_neq; lia).
  unfold analyzeMissedBudgets. cbv zeta. rewrite E.
  rewrite !(missed_pct_cmp _ _ _ Ht).
  eexists. cbn [insight]. rewrite !str_app_assoc. reflexivity.
Qed.

Lemma missed_risk_tiers_witness :
  (0 < length (filter (is_missed (N:=xnum)) (just_over 100 :: zero_budget 0)))%nat
  /\ exists rest, insight (analyzeMissedBudgets (N:=xnum) 2025 (just_over 100 :: zero_budget 0))
  = "**Budget Performance Analysis**" ++ NL2
    ++ "📊 **Budget Overruns**: " ++ show_nat (N:=xnum) (length (filter is_missed (just_over 100 :: zero_budget 0)))
    ++ " out of " ++ show_nat (N:=xnum) (length (just_over 100 :: zero_budget 0))
    ++ " entries (" ++ fixed1 (missed_percentage (N:=xnum) (length (filter is_missed (just_over 100 :: zero_budget 0)))
                                                 (length (just_over 100 :: zero_budget 0)))
    ++ "%) exceeded budget by more than 5%." ++ NL2
    ++ (if (30 * Z.of_nat (length (just_over (N:=xnum) 100 :: zero_budget 0))
            <? 100 * Z.of_nat (length (filter is_missed (just_over (N:=xnum) 100 :: zero_budget 0))))%Z then high_risk
        else if (15 * Z.of_nat (length (just_over (N:=xnum) 100 :: zero_budget 0))
            <? 100 * Z.of_nat (length (filter is_missed (just_over (N:=xnum) 100 :: zero_budget 0))))%Z
        then moderate_concern else "")
    ++ "**Missed Budgets by Year:**" ++ NL ++ rest.
Proof.
  assert (H : (0 < length (filter (is_missed (N:=xnum)) (just_over 100 :: zero_budget 0)))%nat)
    by (apply Nat.ltb_lt; vm_compute; reflexivity).
  split; [exact H | exact (missed_risk_tiers 2025 _ H)].
Defined.

(** [X5] A record whose actual reads as NaN is never counted as missed nor as a significant discrepancy, and with a positive budget it scores "Poor"; both for IEEE doubles and in the exact model. *)
Theorem unparsable_actual_effects :
  (forall item : record float, js_view (actual_of item) = XNaN ->
     is_missed item = false /\ significant (discrepancy_row item) = false
     /\ (js_ltb (js_of_Z 0) (budget_of item) = true -> pr_score (performance_row item) = "Poor"))
  /\ (forall item : record xnum, js_view (actual_of item) = XNaN ->
     is_missed item = false /\ significant (discrepancy_row item) = false
     /\ (js_ltb (js_of_Z 0) (budget_of item) = true -> pr_score (performance_row item) = "Poor")).
Proof.
  split; intros item Hn.
  - apply float_view_nan in Hn.
    unfold is_missed, significant, discrepancy_row, performance_row, guarded_variance.
    cbn [dr_variance pr_score].
    split; [apply float_ltb_nan_r, Hn|]. split.
    + destruct (js_ltb (js_of_Z 0) (budget_of item)); [|vm_compute; reflexivity].
      apply float_ltb_nan_r, float_nan_abs, float_nan_mul, float_nan_div, float_nan_sub, Hn.
    + intro Hb. rewrite Hb.
      assert (V : Prim2SF (js_mul (js_abs (js_div (js_sub (actual_of item) (budget_of item)) (budget_of item)))
                                  (js_of_Z 100)) = S754_nan)
        by apply float_nan_mul, float_nan_abs, float_nan_div, float_nan_sub, Hn.
      rewrite !(float_ltb_nan_l _ _ V). reflexivity.
  - change (actual_of item = XNaN) in Hn.
    unfold is_missed, significant, discrepancy_row, performance_row, guarded_variance.
    cbn [dr_variance pr_score]. rewrite Hn.
    split; [cbn; destruct (xmul _ _); reflexivity|]. split.
    + destruct (js_ltb (js_of_Z 0) (budget_of item)); reflexivity.
    + intro Hb. rewrite Hb. reflexivity.
Qed.

Lemma unparsable_actual_effects_witness :
  pr_score (performance_row (N:=float) [num_field "Budget" 100; ("Actual", JStr "n/a")]) = "Poor"
  /\ pr_score (performance_row (N:=xnum) [num_field "Budget" 100; ("Actual", JStr "n/a")]) = "Poor".
Proof.
  destruct unparsable_actual_effects as [F X]. split.
  - apply (F [num_field "Budget" 100; ("Actual", JStr "n/a")]); vm_compute; reflexivity.
  - apply (X [num_field "Budget" 100; ("Actual", JStr "n/a")]); vm_compute; reflexivity.
Defined.

(** [X6] A record whose parsed budget is not positive has variance 0 in the discrepancy and performance analyses, so it is never a significant discrepancy and always scores "Excellent", whatever its actual; both for IEEE doubles and in the exact model. *)
Theorem nonpositive_budget_rows :
  (forall item : record float, js_ltb (js_of_Z 0) (budget_of item) = false ->
     dr_variance (discrepancy_row item) = js_of_Z 0 /\ significant (discrepancy_row item) = false
     /\ pr_variance (performance_row item) = js_of_Z 0 /\ pr_score (performance_row item) = "Excellent")
  /\ (forall item : record xnum, js_ltb (js_of_Z 0) (budget_of item) = false ->
     dr_variance (discrepancy_row item) = js_of_Z 0 /\ significant (discrepancy_row item) = false
     /\ pr_variance (performance_row item) = js_of_Z 0 /\ pr_score (performance_row item) = "Excellent").
Proof.
  split; intros item Hb;
    unfold significant, discrepancy_row, performance_row, guarded_variance;
    cbn [dr_variance pr_variance pr_score]; rewrite Hb;
    (split; [reflexivity | split; [vm_compute; reflexivity | split; [reflexivity | vm_compute; reflexivity]]]).
Qed.

Lemma nonpositive_budget_rows_witness :
  significant (N:=float) (discrepancy_row [num_field "Budget" 0; num_field "Actual" 1000000]) = false
  /\ pr_score (N:=xnum) (performance_row [("Budget", JStr "TBD"); num_field "Actual" 500]) = "Excellent".
Proof.
  destruct nonpositive_budget_rows as [F X]. split.
  - apply (F [num_field "Budget" 0; num_field "Actual" 1000000]). vm_compute. reflexivity.
  - apply (X [("Budget", JStr "TBD"); num_field "Actual" 500]). vm_compute. reflexivity.
Defined.

(** [X7] (Exact model) the variance of [analyzePerformance] is the absolute value of the variance of [analyzeDiscrepancies] for the same record. *)
Theorem performance_variance_abs (item : record xnum) :
  pr_variance (performance_row item) = js_abs (dr_variance (discrepancy_row item)).
Proof.
  unfold performance_row, discrepancy_row, guarded_variance. cbn [pr_variance dr_variance].
  destruct (js_ltb (js_of_Z 0) (budget_of item)); [apply xmul_abs_100 | reflexivity].
Qed.

(** [X8] [analyzePerformance]'s score tally (exact model): each score maps to the number of records with that score, and only the four labels Excellent, Good, Fair, Poor occur as keys. *)
Theorem score_counts_spec (records : list (record xnum)) (s : string) :
  obj_get (score_counts (map performance_row records)) s
  = match filter (fun r => String.eqb (pr_score r) s) (map performance_row records) with
    | [] => None
    | rs => Some (js_of_Z (Z.of_nat (length rs)))
    end
  /\ (In s (map fst (score_counts (map performance_row records))) ->
      In s ["Excellent"; "Good"; "Fair"; "Poor"]).
Proof.
  assert (L : obj_get (score_counts (map performance_row records)) s
    = match filter (fun r => String.eqb (pr_score r) s) (map performance_row records) with
      | [] => None
      | rs => Some (js_of_Z (Z.of_nat (length rs)))
      end) by apply (count_lookup pr_score).
  split; [exact L|].
  intro Hin. apply obj_get_in in Hin. rewrite L in Hin.
  destruct (filter _ _) as [|r rs] eqn:F; [congruence|].
  assert (Hr : In r (filter (fun r => String.eqb (pr_score r) s) (map performance_row records)))
    by (rewrite F; left; reflexivity).
  apply filter_In in Hr as [Hr E]. apply String.eqb_eq in E. subst s.
  apply in_map_iff in Hr as [item [<- _]].
  unfold performance_row. cbn [pr_score].
  destruct (js_ltb _ (js_of_Z 5)); [simpl; tauto|].
  destruct (js_ltb _ (js_of_Z 15)); [simpl; tauto|].
  destruct (js_ltb _ (js_of_Z 25)); simpl; tauto.
Qed.

(** [X9] The "Performance Distribution" of [analyzePerformance] (exact model) lists each score once, and its counts add up to the number of records. *)
Theorem score_distribution_total (data : list (record xnum)) :
  let o := score_counts (map performance_row data) in
  NoDup (map fst (obj_entries o))
  /\ fold_left js_add (map snd (obj_entries o)) (js_of_Z 0) = js_of_Z (Z.of_nat (length data)).
Proof.
  cbv zeta. rewrite <- (length_map performance_row data).
  exact (count_entries_total pr_score (map performance_row data)).
Qed.

(** [X10] When the total budget is not positive, [analyzeTotals] reports an overall variance of 0: its payload carries variance 0 and its text ends with "0.0%" and the excellent-control label; both for IEEE doubles and in the exact model. *)
Theorem totals_nonpositive_budget :
  (forall records : list (record float), js_ltb (js_of_Z 0) (totalBudget (totals_of records)) = false ->
     data (analyzeTotals records) = Some (PTotals (totals_of records) (js_of_Z 0))
     /\ exists pre, insight (analyzeTotals records)
                    = pre ++ "📊 **Overall Variance**: 0.0%" ++ NL2 ++ excellent_control)
  /\ (forall records : list (record xnum), js_ltb (js_of_Z 0) (totalBudget (totals_of records)) = false ->
     data (analyzeTotals records) = Some (PTotals (totals_of records) (js_of_Z 0))
     /\ exists pre, insight (analyzeTotals records)
                    = pre ++ "📊 **Overall Variance**: 0.0%" ++ NL2 ++ excellent_control).
Proof.
  split; intro records; apply totals_zero_text; vm_compute; reflexivity.
Qed.

Lemma totals_nonpositive_budget_witness :
  data (analyzeTotals (N:=float) []) = Some (PTotals (totals_of []) (js_of_Z 0))
  /\ data (analyzeTotals (N:=xnum) (zero_budget 10)) = Some (PTotals (totals_of (zero_budget 10)) (js_of_Z 0)).
Proof.
  destruct totals_nonpositive_budget as [F X]. split.
  - apply (F []). vm_compute. reflexivity.
  - apply (X (zero_budget 10)). vm_compute. reflexivity.
Defined.

(** [X11] [analyzeDiscrepancies] gives the "Excellent Accuracy" text with an empty payload exactly when no record has an absolute variance above 5%. *)
Theorem analyzeDiscrepancies_all_within {N : Type} `{JSNum N} (records : list (record N)) :
  analyzeDiscrepancies records
  = mk_result ("**Budget Variance Analysis**" ++ NL2
               ++ "✅ **Excellent Accuracy**: All budget entries are within 5% of planned amounts." ++ NL2)
              (Some (PDiscrepancies [])) (Some ChartTable)
  <-> (forall item, In item records -> significant (discrepancy_row item) = false).
Proof.
  assert (F : discrepancies_of records = [] <-> (forall item, In item records -> significant (discrepancy_row item) = false)).
  { unfold discrepancies_of. split.
    - intros E item Hin. destruct (significant (discrepancy_row item)) eqn:S; [|reflexivity].
      assert (In (discrepancy_row item) (filter significant (map discrepancy_row records))) as C
        by (apply filter_In; split; [apply in_map; exact Hin | exact S]).
      rewrite E in C. destruct C.
    - intro A. destruct (filter significant (map discrepancy_row records)) as [|r rs] eqn:E; [reflexivity|].
      assert (In r (filter significant (map discrepancy_row records))) as C by (rewrite E; left; reflexivity).
      apply filter_In in C as [C S]. apply in_map_iff in C as [item [<- Hin]]. rewrite A in S by exact Hin.
      discriminate. }
  rewrite <- F. unfold analyzeDiscrepancies. cbv zeta.
  destruct (discrepancies_of records) as [|r rs] eqn:E; cbn [length Nat.eqb].
  - split; reflexivity.
  - split; [|discriminate]. intro R. apply (f_equal data) in R. cbn [data] in R. injection R as R.
    pose proof (Permutation_length (stable_sort_perm
      (fun y x => js_ltb (js_of_Z 0) (js_sub (js_abs (dr_variance x)) (js_abs (dr_variance y)))) (r :: rs))) as L.
    unfold sort_by_abs_variance in R. rewrite R in L. discriminate.
Qed.

(** [X12] A [Budget] or [Actual] field holding the decimal digits of an
    integer z, with a leading "-" when z < 0, reads as that decimal literal:
    the number nearest to |z|, negated when z < 0 (for IEEE doubles, the
    double nearest to |z|; in the exact model, z itself). *)
Theorem integer_string_fields {N : Type} `{JSNum N} (z : Z) (rest : record N) :
  budget_of (("Budget", JStr (Z_to_string z)) :: rest)
    = (if (z <? 0)%Z then js_neg (js_dec (- z) 0) else js_dec z 0)
  /\ actual_of (("Actual", JStr (Z_to_string z)) :: rest)
    = (if (z <? 0)%Z then js_neg (js_dec (- z) 0) else js_dec z 0).
Proof.
  unfold budget_of, actual_of, get. cbn [obj_get]. rewrite !String.eqb_refl.
  unfold js_or. cbn [truthy]. rewrite Z_to_string_nonempty. cbn [negb truthy].
  rewrite Z_to_string_nonempty. cbn [negb parseFloat].
  split; apply parse_Z_to_string.
Qed.
